(** * create_png.py: the equation-to-PNG conversion pipeline

    A shallow embedding of [EquationProcessor] (src/create_png.py) and the
    properties of its loader, file-name handling, document template,
    per-record pipeline and clean-up sweep.

    Modelling conventions.
    - A Python [str] is a [string]; its characters are the code points
      below 256 (one [ascii] each).
    - Library calls whose result depends on the machine (opening the CSV
      file, spawning a process, writing or removing a file, walking a
      directory) are answered by an environment record [env].
    - The file system is the finite set of paths that exist; paths are
      joined as [posixpath] joins them.
    - Effectful methods live in a state-and-exception monad [M] over
      [world]; a Python exception is a value of [exn]. *)

From Stdlib Require Import Ascii String.
From stdpp Require Import base tactics option list gmap strings pretty.

Local Arguments String.append : simpl nomatch.

(** ** Python string methods *)

Module Py.

(** [str.isspace] on one character, code points below 256:
    TAB..CR, FS..US, SPACE, NEL (0x85) and NBSP (0xA0). *)
Definition isspace (c : ascii) : bool :=
  let n := N_of_ascii c in
  ((9 <=? n) && (n <=? 13) || (28 <=? n) && (n <=? 32)
   || (n =? 133) || (n =? 160))%N.

(** Membership of a character in the [chars] argument of [lstrip]. *)
Fixpoint char_in (c : ascii) (chars : string) : bool :=
  match chars with
  | "" => false
  | String d chars' => Ascii.eqb c d || char_in c chars'
  end.

(** Drop the leading characters that satisfy [p]. *)
Fixpoint lstrip_by (p : ascii -> bool) (s : string) : string :=
  match s with
  | "" => ""
  | String c s' => if p c then lstrip_by p s' else s
  end.

Definition rstrip_by (p : ascii -> bool) (s : string) : string :=
  String.rev (lstrip_by p (String.rev s)).

(** [s.strip()] *)
Definition strip (s : string) : string :=
  rstrip_by isspace (lstrip_by isspace s).

(** [s.lstrip(chars)] *)
Definition lstrip (chars s : string) : string :=
  lstrip_by (fun c => char_in c chars) s.

(** [s.startswith(p)] *)
Fixpoint startswith (s p : string) {struct p} : bool :=
  match p, s with
  | "", _ => true
  | String _ _, "" => false
  | String d p', String c s' => Ascii.eqb c d && startswith s' p'
  end.

(** [s.endswith(p)]: [p] is [s] or a suffix of the rest of [s]. *)
Fixpoint endswith (s p : string) : bool :=
  String.eqb s p
  || match s with
     | "" => false
     | String _ s' => endswith s' p
     end.

(** [sub in s] *)
Fixpoint contains (sub s : string) : bool :=
  startswith s sub
  || match s with
     | "" => false
     | String _ s' => contains sub s'
     end.

Fixpoint drop (n : nat) (s : string) : string :=
  match n, s with
  | S n', String _ s' => drop n' s'
  | _, _ => s
  end.

(** [s.replace(old, new)] for a non-empty [old]: scan from the left,
    replace each occurrence found and resume after it.  [fuel] bounds
    the number of scan steps; [String.length s] always suffices. *)
Fixpoint replace_go (fuel : nat) (old new s : string) : string :=
  match fuel with
  | 0 => s
  | S fuel' =>
      match s with
      | "" => ""
      | String c s' =>
          if startswith s old
          then new +:+ replace_go fuel' old new (drop (String.length old) s)
          else String c (replace_go fuel' old new s')
      end
  end.

(** [s.replace(old, new)]; with an empty [old] Python puts [new]
    before every character and at the end. *)
Fixpoint intersperse (new s : string) : string :=
  match s with
  | "" => new
  | String c s' => new +:+ String c (intersperse new s')
  end.

Definition replace (old new s : string) : string :=
  match old with
  | "" => intersperse new s
  | String _ _ => replace_go (String.length s) old new s
  end.

(** [s.lower()] on code points below 256: A-Z and the capital letters
    0xC0..0xDE (the multiplication sign 0xD7 apart) move up by 32. *)
Definition lower_char (c : ascii) : ascii :=
  let n := N_of_ascii c in
  if ((65 <=? n) && (n <=? 90) || (192 <=? n) && (n <=? 222) && negb (n =? 215))%N
  then ascii_of_N (n + 32) else c.

Fixpoint lower (s : string) : string :=
  match s with
  | "" => ""
  | String c s' => String (lower_char c) (lower s')
  end.

(** [os.path.join(a, b)] of posixpath. *)
Definition os_path_join (a b : string) : string :=
  if startswith b "/" then b
  else if String.eqb a "" || endswith a "/" then a +:+ b
  else a +:+ "/" +:+ b.

(** The prefix [os.path.join(a, b)] puts before [b]. *)
Definition join_prefix (a b : string) : string :=
  if startswith b "/" then ""
  else if String.eqb a "" || endswith a "/" then a else a +:+ "/".

End Py.

(** ** Exceptions and results *)

(** The kinds of [OSError] the pipeline can meet. *)
Inductive oserror :=
| ENOENT   (* FileNotFoundError *)
| EACCES   (* PermissionError *)
| EOTHER.  (* any other OSError *)

(** The Python exceptions that occur in the pipeline; each of them is a
    subclass of [Exception]. *)
Inductive exn :=
| OSError (k : oserror)
| IndexError
| StopIteration
| CalledProcessError (returncode : Z).

Inductive result (A : Type) :=
| Ok (a : A)
| Raise (e : exn)
| Diverge.  (* a loop that did not finish within its fuel *)
Arguments Ok {A} a.
Arguments Raise {A} e.
Arguments Diverge {A}.

(** ** RecordLoader: [read_equation_list] *)

(** What [open(self.file_path, "r")] followed by [csv.reader] gives:
    the open fails, or the reader yields these rows. *)
Inductive csv_file :=
| OpenFailed (k : oserror)
| Opened (rows : list (list string)).

(** [row[i]] *)
Definition index (row : list string) (i : nat) : result string :=
  match row !! i with
  | Some field => Ok field
  | None => Raise IndexError
  end.

(** The body of [for row in reader], with [equations] the list built so far. *)
Fixpoint read_rows (reader : list (list string)) (equations : list (string * string))
  : result (list (string * string)) :=
  match reader with
  | [] => Ok equations
  | row :: reader' =>
      match index row 0 with
      | Ok flag =>
          if String.eqb flag "1" then
            match index row 1 with
            | Ok f1 =>
                match index row 2 with
                | Ok f2 => read_rows reader' (equations ++ [(Py.strip f1, Py.strip f2)])
                | Raise e => Raise e
                | Diverge => Diverge
                end
            | Raise e => Raise e
            | Diverge => Diverge
            end
          else read_rows reader' equations
      | Raise e => Raise e
      | Diverge => Diverge
      end
  end.

Definition read_equation_list (file : csv_file) : result (list (string * string)) :=
  match file with
  | OpenFailed k => Raise (OSError k)
  | Opened rows =>
      match rows with
      | [] => Raise StopIteration            (* next(reader) on an exhausted reader *)
      | _header :: reader => read_rows reader []
      end
  end.

(** The loader as the specification words it: keep the rows whose field 0
    is the literal 1, in order, and trim fields 1 and 2 of each. *)
Definition field (i : nat) (row : list string) : string := default "" (row !! i).

Definition flagged (row : list string) : bool :=
  bool_decide (row !! 0 = Some "1").

Definition spec_load (rows : list (list string)) : list (string * string) :=
  map (fun row => (Py.strip (field 1 row), Py.strip (field 2 row)))
      (List.filter flagged rows).

(** A row the loop can handle: it has a field 0, and fields 1 and 2 as
    well when field 0 is the literal 1. *)
Definition row_ok (row : list string) : bool :=
  (1 <=? length row) && (negb (flagged row) || (3 <=? length row)).

(** The inputs [read_equation_list] raises on because of the open or of a
    row after the header. *)
Definition rejected (file : csv_file) : bool :=
  match file with
  | OpenFailed _ => true
  | Opened rows => negb (forallb row_ok (tail rows))
  end.

(** ** FilenameAllocator: [clean_filename] *)

Definition in_range (lo hi c : ascii) : bool :=
  ((N_of_ascii lo <=? N_of_ascii c) && (N_of_ascii c <=? N_of_ascii hi))%N.

(** The character class [a-zA-Z0-9_.] *)
Definition is_safe (c : ascii) : bool :=
  in_range "a" "z" c || in_range "A" "Z" c || in_range "0" "9" c
  || Ascii.eqb c "_" || Ascii.eqb c ".".

(** [re.sub(r"[^a-zA-Z0-9_.]", "", filename)] *)
Fixpoint clean_filename (filename : string) : string :=
  match filename with
  | "" => ""
  | String c s => if is_safe c then String c (clean_filename s) else clean_filename s
  end.

Fixpoint string_forallb (p : ascii -> bool) (s : string) : bool :=
  match s with
  | "" => true
  | String c s' => p c && string_forallb p s'
  end.

(** ** DocumentTemplater: [wrap_equation_in_latex] *)

Definition nl : string := String "010" "".
Definition indent : string := "        ".

(** The text of the f-string: a newline and eight blanks before every line,
    nothing after the last one. *)
Definition template (body : list string) : string :=
  String.concat "" (map (fun l => nl +:+ indent +:+ l) body).

Definition wrap_equation_in_latex (equation color : string) : string :=
  let color_code := Py.lstrip "#" color in
  template
    [ "\documentclass[border=1pt]{standalone}";
      "\usepackage{amsmath}";
      "\usepackage{xfrac}";
      "\usepackage{gfsneohellenicot}";
      "\usepackage{xcolor}";
      "\definecolor{equationcolor}{HTML}{" +:+ color_code +:+ "}";
      "\begin{document}";
      "\setbox0\hbox{\Large \textcolor{equationcolor}{$" +:+ equation +:+ "$}}";
      "\dimen0=12mm";
      "\ifdim\ht0<\dimen0";
      "\ht0=\dimen0";
      "\fi";
      "\ifdim\dp0<5mm";
      "\dp0=5mm";
      "\fi";
      "\box0";
      "\end{document}" ].

(** The text of the document before the colour code and after it, line
    by line as the f-string has it. *)
Definition line (s : string) : string := nl +:+ indent +:+ s.

Definition before_color_code : string :=
  line "\documentclass[border=1pt]{standalone}"
  +:+ line "\usepackage{amsmath}"
  +:+ line "\usepackage{xfrac}"
  +:+ line "\usepackage{gfsneohellenicot}"
  +:+ line "\usepackage{xcolor}"
  +:+ nl +:+ indent +:+ "\definecolor{equationcolor}{HTML}{".

Definition after_color_code (equation : string) : string :=
  "}"
  +:+ line "\begin{document}"
  +:+ nl +:+ indent +:+ "\setbox0\hbox{\Large \textcolor{equationcolor}{$"
  +:+ equation
  +:+ "$}}"
  +:+ line "\dimen0=12mm"
  +:+ line "\ifdim\ht0<\dimen0"
  +:+ line "\ht0=\dimen0"
  +:+ line "\fi"
  +:+ line "\ifdim\dp0<5mm"
  +:+ line "\dp0=5mm"
  +:+ line "\fi"
  +:+ line "\box0"
  +:+ line "\end{document}".

(** Lines 185-186 of [process_equations]: the page and image paths of a
    document path. *)
Definition pdf_file_path (tex_file_path : string) : string :=
  Py.replace ".tex" ".pdf" tex_file_path.

Definition png_file_path (tex_file_path : string) : string :=
  Py.replace ".tex" ".png" tex_file_path.

(** ** The world the pipeline runs in *)

(** The [logging] calls of the module, one constructor per call site.
    Records below the configured level ([logging.debug]) are dropped by
    the root logger and are not part of the trace; neither is [print]. *)
Inductive message :=
| EnsuredFolder (output_path : string)
| CompilerErrors (full_output : list string)
| CompiledOk (tex_file : string)
| CompilationFailed (tex_file : string) (e : exn)
| ConvertedOk (pdf_file : string)
| ConversionFailed (pdf_file : string) (e : exn)
| DeletedCount (deleted_files : nat).

Inductive level := INFO | ERROR.

Inductive event :=
| Log (lvl : level) (msg : message)
| FileWritten (path content : string)
| Spawned (argv : list string).

(** How a child process ends: it cannot be launched, or it runs to its
    exit, having printed [output] and left the paths [files_after]. *)
Inductive spawn_result :=
| LaunchFailed (k : oserror)
| Exited (returncode : Z) (output : list string) (files_after : gset string).

(** The machine: every answer the operating system gives. *)
Record env := {
  getcwd : string;
  abspath : string -> string;                           (* os.path.abspath *)
  makedirs_error : string -> option oserror;            (* os.makedirs(p, exist_ok=True) *)
  open_csv : string -> csv_file;                        (* open(p, "r") and csv.reader *)
  stdin_line : string;                                  (* what input() returns *)
  write_error : string -> gset string -> option oserror;  (* open(p, "w") *)
  spawn : list string -> gset string -> spawn_result;   (* subprocess *)
  walk : string -> gset string -> list (string * list string * list string);  (* os.walk *)
  remove_error : string -> option oserror               (* os.remove on an existing path *)
}.

Record world := {
  files : gset string;   (* the paths that exist *)
  trace : list event     (* what happened so far, oldest first *)
}.

Definition M (A : Type) : Type := world -> result A * world.

Definition ret {A} (a : A) : M A := fun w => (Ok a, w).
Definition raise {A} (e : exn) : M A := fun w => (Raise e, w).
Definition diverge {A} : M A := fun w => (Diverge, w).

Definition bind {A B} (m : M A) (k : A -> M B) : M B :=
  fun w =>
    match m w with
    | (Ok a, w') => k a w'
    | (Raise e, w') => (Raise e, w')
    | (Diverge, w') => (Diverge, w')
    end.

Global Instance M_ret : MRet M := @ret.
Global Instance M_bind : MBind M := fun A B k m => bind m k.

(** [try: body except <class> as e: handler e]; [catches] says which
    exceptions are instances of the class. *)
Definition try_except {A} (body : M A) (catches : exn -> bool) (handler : exn -> M A) : M A :=
  fun w =>
    match body w with
    | (Raise e, w') => if catches e then handler e w' else (Raise e, w')
    | r => r
    end.

(** [except Exception] *)
Definition is_Exception (e : exn) : bool := true.

(** [except subprocess.CalledProcessError] *)
Definition is_CalledProcessError (e : exn) : bool :=
  match e with CalledProcessError _ => true | _ => false end.

Definition emit (ev : event) : M unit :=
  fun w => (Ok tt, {| files := files w; trace := trace w ++ [ev] |}).

Definition logging_info (msg : message) : M unit := emit (Log INFO msg).
Definition logging_error (msg : message) : M unit := emit (Log ERROR msg).

(** A result computed without touching the world. *)
Definition lift {A} (r : result A) : M A := fun w => (r, w).

(** The paths that exist now. *)
Definition get_files : M (gset string) := fun w => (Ok (files w), w).

Section Machine.
Variable E : env.

(** [with open(p, "w") as f: f.write(content)] *)
Definition write_file (p content : string) : M unit :=
  fun w =>
    match write_error E p (files w) with
    | Some k => (Raise (OSError k), w)
    | None => (Ok tt, {| files := {[p]} ∪ files w;
                         trace := trace w ++ [FileWritten p content] |})
    end.

(** Launch [argv] and wait for it: the exit code and the lines printed. *)
Definition run_process (argv : list string) : M (Z * list string) :=
  fun w =>
    let w1 := {| files := files w; trace := trace w ++ [Spawned argv] |} in
    match spawn E argv (files w) with
    | LaunchFailed k => (Raise (OSError k), w1)
    | Exited returncode output files_after =>
        (Ok (returncode, output), {| files := files_after; trace := trace w1 |})
    end.

(** [os.remove(p)] *)
Definition os_remove (p : string) : M unit :=
  fun w =>
    if bool_decide (p ∈ files w) then
      match remove_error E p with
      | Some k => (Raise (OSError k), w)
      | None => (Ok tt, {| files := files w ∖ {[p]}; trace := trace w |})
      end
    else (Raise (OSError ENOENT), w).

(** ** The processor *)

Record EquationProcessor := {
  file_path : string;
  output_path : string;
  resolution : Z;
  color : string
}.

(** [__init__] *)
Definition init (file_path output_path : string) (resolution : Z) (color : string)
  : EquationProcessor :=
  {| file_path := file_path;
     output_path := Py.os_path_join (getcwd E) output_path;
     resolution := resolution;
     color := color |}.

Variable self : EquationProcessor.

Definition check_create_folder : M unit :=
  match makedirs_error E (output_path self) with
  | Some k => raise (OSError k)
  | None => logging_info (EnsuredFolder (output_path self))
  end.

Definition xelatex_argv (tex_file : string) : list string :=
  let output_dir := Py.replace "\" "/" (abspath E (output_path self)) in
  let tex_file_unix := Py.replace "\" "/" tex_file in
  ["xelatex"; "-output-directory=" +:+ output_dir; tex_file_unix].

Definition compile_latex_file (tex_file : string) : M unit :=
  try_except
    ('(returncode, full_output) ← run_process (xelatex_argv tex_file);
     if bool_decide (returncode ≠ 0%Z)
     then logging_error (CompilerErrors full_output)
     else logging_info (CompiledOk tex_file))
    is_Exception
    (fun e => logging_error (CompilationFailed tex_file e)).

Definition magick_argv (pdf_file png_file : string) : list string :=
  let pdf_file_unix := Py.replace "\" "/" pdf_file in
  let png_file_unix := Py.replace "\" "/" png_file in
  ["magick"; "convert"; "-density"; pretty (resolution self);
   "-quality"; "100"; pdf_file_unix; png_file_unix].

Definition convert_pdf_to_png (pdf_file png_file : string) : M unit :=
  try_except
    ('(returncode, _) ← run_process (magick_argv pdf_file png_file);
     (if bool_decide (returncode ≠ 0%Z)
      then raise (CalledProcessError returncode)    (* check=True *)
      else ret tt) ;;
     logging_info (ConvertedOk pdf_file))
    is_CalledProcessError
    (fun e => logging_error (ConversionFailed pdf_file e)).

Definition file_extensions : list string := [".log"; ".aux"; ".tex"; ".pdf"].

(** [any(file.endswith(ext) for ext in file_extensions)] *)
Definition is_intermediate (file : string) : bool :=
  existsb (fun ext => Py.endswith file ext) file_extensions.

(** [for file in files: ...] of [cleanup_files], counting in [deleted_files]. *)
Fixpoint cleanup_dir (root : string) (names : list string) (deleted_files : nat) : M nat :=
  match names with
  | [] => ret deleted_files
  | file :: names' =>
      if is_intermediate file
      then os_remove (Py.os_path_join root file) ;;
           cleanup_dir root names' (deleted_files + 1)
      else cleanup_dir root names' deleted_files
  end.

(** [for root, dirs, files in os.walk(...): ...] *)
Fixpoint cleanup_walk (entries : list (string * list string * list string))
    (deleted_files : nat) : M nat :=
  match entries with
  | [] => ret deleted_files
  | (root, _dirs, names) :: entries' =>
      deleted_files ← cleanup_dir root names deleted_files;
      cleanup_walk entries' deleted_files
  end.

Definition cleanup_files : M unit :=
  fs ← get_files;
  deleted_files ← cleanup_walk (walk E (output_path self) fs) 0;
  logging_info (DeletedCount deleted_files).

(** The sweep seen from its targets: remove the paths one after the
    other, counting. *)
Fixpoint remove_all (targets : list string) (deleted_files : nat) : M nat :=
  match targets with
  | [] => ret deleted_files
  | p :: targets' => os_remove p ;; remove_all targets' (deleted_files + 1)
  end.

(** The [while os.path.exists(...)] loop of [process_equations]; [None]
    when [fuel] iterations were not enough. *)
Fixpoint probe (fuel : nat) (fs : gset string) (base_filename tex_filename : string)
    (increment : nat) : option string :=
  if bool_decide (Py.os_path_join (output_path self) tex_filename ∈ fs) then
    match fuel with
    | 0 => None
    | S fuel' =>
        probe fuel' fs base_filename
          (base_filename +:+ "_" +:+ pretty increment +:+ ".tex") (increment + 1)
    end
  else Some tex_filename.

(** Lines 174-181: find the first free document name for
    [base_filename] and write the document under it.  The loop meets a
    different existing path at every turn, so it is given one turn more
    than there are paths. *)
Definition allocate (base_filename latex_content : string) : M string :=
  fs ← get_files;
  match probe (S (size fs)) fs base_filename (base_filename +:+ ".tex") 1 with
  | None => diverge
  | Some tex_filename =>
      write_file (Py.os_path_join (output_path self) tex_filename) latex_content ;;
      ret tex_filename
  end.

(** The body of the [for i, (equation, filename) in enumerate(equations, start=1)] loop. *)
Definition process_record (i : nat) (record : string * string) : M unit :=
  let '(equation, filename) := record in
  let latex_content := wrap_equation_in_latex equation (color self) in
  let base_filename :=
    clean_filename (if String.eqb filename "" then "equation_" +:+ pretty i else filename) in
  tex_filename ← allocate base_filename latex_content;
  let tex_file_path := Py.os_path_join (output_path self) tex_filename in
  compile_latex_file tex_file_path ;;
  convert_pdf_to_png (pdf_file_path tex_file_path) (png_file_path tex_file_path).

Fixpoint process_records (i : nat) (equations : list (string * string)) : M unit :=
  match equations with
  | [] => ret tt
  | record :: equations' =>
      process_record i record ;;
      process_records (i + 1) equations'
  end.

(** Lines 169-188: the loop over the loaded records, then the sweep. *)
Definition run_pipeline (equations : list (string * string)) : M unit :=
  process_records 1 equations ;;
  cleanup_files.

Definition process_equations : M unit :=
  check_create_folder ;;
  equations ← lift (read_equation_list (open_csv E (file_path self)));
  let confirmation := Py.lower (Py.strip (stdin_line E)) in
  if bool_decide (confirmation ≠ "y") then ret tt
  else run_pipeline equations.

End Machine.

(** ** Vocabulary of the statements *)

(** What [compile_latex_file] logs, by the way the compiler run ended. *)
Definition compile_log (tex_file : string) (r : spawn_result) : event :=
  match r with
  | LaunchFailed k => Log ERROR (CompilationFailed tex_file (OSError k))
  | Exited returncode full_output _ =>
      if bool_decide (returncode ≠ 0%Z)
      then Log ERROR (CompilerErrors full_output)
      else Log INFO (CompiledOk tex_file)
  end.

Definition files_after (r : spawn_result) (fs : gset string) : gset string :=
  match r with
  | LaunchFailed _ => fs
  | Exited _ _ fs' => fs'
  end.

(** The allocator as the specification words it: [name] is the candidate's
    document name when that is free under [dir], and otherwise the first
    free one of candidate_1, candidate_2, ... *)
Definition numbered (base : string) (k : nat) : string :=
  base +:+ "_" +:+ pretty k +:+ ".tex".

Definition first_free (dir : string) (fs : gset string) (base name : string) : Prop :=
  ((Py.os_path_join dir (base +:+ ".tex") ∉ fs) ∧ name = base +:+ ".tex")
  ∨ (Py.os_path_join dir (base +:+ ".tex") ∈ fs
     ∧ (∃ k, 1 ≤ k ∧ name = numbered base k
            ∧ (Py.os_path_join dir name ∉ fs)
            ∧ (∀ j, 1 ≤ j < k → Py.os_path_join dir (numbered base j) ∈ fs))).

(** The paths the sweep is to remove, in the order it meets them. *)
Definition sweep_targets (entries : list (string * list string * list string)) : list string :=
  flat_map (fun '(root, _, names) =>
              map (Py.os_path_join root) (List.filter is_intermediate names))
           entries.

(** ** Sample machines *)

Definition sample_rows : list (list string) :=
  [["valid"; "equation"; "name"]; ["1"; "x^2"; "square"]; ["1"; "y^2"; "circle"]].

(** A machine on which everything works: both tools exist and exit with
    code 0, every write and every removal succeeds.  Its output directory
    lists three files and a subdirectory with one more. *)
Definition sample_machine : env :=
  {| getcwd := "/srv";
     abspath := fun p => p;
     makedirs_error := fun _ => None;
     open_csv := fun _ => Opened sample_rows;
     stdin_line := "y";
     write_error := fun _ _ => None;
     spawn := fun _ fs => Exited 0 [] fs;
     walk := fun top _ =>
       [(top, ["old"], ["a.log"; "a.png"; "a.aux"]);
        (Py.os_path_join top "old", [], ["b.tex"])];
     remove_error := fun _ => None |}.

Definition with_spawn (E : env) (f : list string -> gset string -> spawn_result) : env :=
  {| getcwd := getcwd E;
     abspath := abspath E;
     makedirs_error := makedirs_error E;
     open_csv := open_csv E;
     stdin_line := stdin_line E;
     write_error := write_error E;
     spawn := f;
     walk := walk E;
     remove_error := remove_error E |}.

Definition with_remove_error (E : env) (f : string -> option oserror) : env :=
  {| getcwd := getcwd E;
     abspath := abspath E;
     makedirs_error := makedirs_error E;
     open_csv := open_csv E;
     stdin_line := stdin_line E;
     write_error := write_error E;
     spawn := spawn E;
     walk := walk E;
     remove_error := f |}.

(** [xelatex] rejects every document with exit code 1. *)
Definition failing_compiler : env :=
  with_spawn sample_machine
    (fun argv fs =>
       match argv with
       | "xelatex" :: _ => Exited 1 ["! Undefined control sequence."] fs
       | _ => Exited 0 [] fs
       end).

(** ImageMagick is not installed: [magick] cannot be launched. *)
Definition no_magick : env :=
  with_spawn sample_machine
    (fun argv fs =>
       match argv with
       | "magick" :: _ => LaunchFailed ENOENT
       | _ => Exited 0 [] fs
       end).

(** The first file the sweep meets is protected against removal. *)
Definition protected_log : env :=
  with_remove_error sample_machine
    (fun p => if String.eqb p "/srv/out/a.log" then Some EACCES else None).

(** The second file the sweep meets is protected against removal. *)
Definition protected_aux : env :=
  with_remove_error sample_machine
    (fun p => if String.eqb p "/srv/out/a.aux" then Some EACCES else None).

Definition sample_processor : EquationProcessor :=
  init sample_machine "equations.csv" "out" 600 "#2B363A".

Definition empty_world : world := {| files := ∅; trace := [] |}.

(** The output directory after a run, before the sweep. *)
Definition unswept_world : world :=
  {| files := {[ "/srv/out/a.log"; "/srv/out/a.png"; "/srv/out/a.aux"; "/srv/out/old/b.tex" ]};
     trace := [] |}.

(** ** Vocabulary of the further properties *)

(** The documents written and the commands spawned along a trace. *)
Definition written (t : list event) : list string :=
  flat_map (fun ev => match ev with FileWritten p _ => [p] | _ => [] end) t.

Definition spawned (t : list event) : list (list string) :=
  flat_map (fun ev => match ev with Spawned argv => [argv] | _ => [] end) t.

(** What [convert_pdf_to_png] logs once the rasterizer has exited. *)
Definition convert_log (pdf_file : string) (returncode : Z) : event :=
  if bool_decide (returncode ≠ 0%Z)
  then Log ERROR (ConversionFailed pdf_file (CalledProcessError returncode))
  else Log INFO (ConvertedOk pdf_file).

(** Child processes that create files but delete none. *)
Definition tools_only_add (E : env) : Prop :=
  ∀ argv fs returncode output fs',
    spawn E argv fs = Exited returncode output fs' → fs ⊆ fs'.



(** * Properties *)

(** ** Loader *)

Lemma read_rows_ok rows : ∀ equations,
  forallb row_ok rows = true →
  read_rows rows equations = Ok (equations ++ spec_load rows).
Proof.
  induction rows as [|row rows IH]; intros equations Hok; simpl in *.
  - unfold spec_load. simpl. by rewrite app_nil_r.
  - apply andb_prop in Hok as [Hrow Hrows].
    unfold row_ok, flagged in Hrow. unfold spec_load, flagged, field. simpl.
    destruct row as [|flag [|f1 [|f2 rest]]]; simpl in *; try done.
    + case_bool_decide as Hflag; [done|].
      destruct (String.eqb_spec flag "1") as [->|_]; [done|].
      by apply IH.
    + case_bool_decide as Hflag; [done|].
      destruct (String.eqb_spec flag "1") as [->|_]; [done|].
      by apply IH.
    + case_bool_decide as Hflag.
      * injection Hflag as ->. simpl. rewrite IH by done.
        by rewrite <- app_assoc.
      * destruct (String.eqb_spec flag "1") as [->|_]; [done|].
        by apply IH.
Qed.

Lemma read_rows_bad rows : ∀ equations,
  forallb row_ok rows = false →
  read_rows rows equations = Raise IndexError.
Proof.
  induction rows as [|row rows IH]; intros equations Hbad; simpl in *; [done|].
  apply andb_false_iff in Hbad as [Hrow|Hrows].
  - unfold row_ok, flagged in Hrow.
    destruct row as [|flag [|f1 [|f2 rest]]]; simpl in *; try done.
    + case_bool_decide as Hflag; [|done]. by injection Hflag as ->.
    + case_bool_decide as Hflag; [|done]. by injection Hflag as ->.
    + case_bool_decide; done.
  - unfold index.
    destruct (row !! 0) as [flag|]; [|done].
    destruct (String.eqb flag "1"); [|by apply IH].
    destruct (row !! 1); [|done]. destruct (row !! 2); [|done]. by apply IH.
Qed.

(** C2. Loader filter correctness and ordering: after the header, the
    loader emits exactly the rows whose field 0 is the literal 1, in input
    order, as (trimmed field 1, trimmed field 2); every other row is
    skipped without error, however few fields it has beyond field 0. *)
Theorem read_equation_list_filter (header : list string) (rows : list (list string)) :
  forallb row_ok rows = true →
  read_equation_list (Opened (header :: rows)) = Ok (spec_load rows).
Proof. intros Hok. simpl. by rewrite read_rows_ok. Qed.

Lemma read_equation_list_filter_witness :
  read_equation_list
    (Opened [["valid"; "equation"; "name"];
             ["1"; " x^2 "; "square"]; ["0"]; ["no"; "y"]; ["1"; "\frac{a}{b}"; " "; "extra"]])
  = Ok [("x^2", "square"); ("\frac{a}{b}", "")].
Proof. apply (read_equation_list_filter ["valid"; "equation"; "name"]). reflexivity. Defined.

(** C3, as amended. The loader raises whenever the file cannot be opened
    ([OSError]) or some row after the header is empty or has field 0 equal
    to the literal 1 and fewer than 3 fields ([IndexError]). *)
Theorem read_equation_list_raises (file : csv_file) :
  rejected file = true →
  read_equation_list file
  = Raise (match file with OpenFailed k => OSError k | Opened _ => IndexError end).
Proof.
  destruct file as [k|[|header rows]]; simpl; [done..|].
  intros Hbad%negb_true_iff. by apply read_rows_bad.
Qed.

Lemma read_equation_list_raises_witness :
  read_equation_list (Opened [["valid"; "equation"; "name"]; ["0"; "a"; "b"]; ["1"; "x^2"]])
  = Raise IndexError.
Proof.
  apply (read_equation_list_raises
           (Opened [["valid"; "equation"; "name"]; ["0"; "a"; "b"]; ["1"; "x^2"]])).
  reflexivity.
Defined.

(** C3 as stated fails: a row after the header with fewer than 3 fields
    whose field 0 is not the literal 1 is skipped, and the load succeeds. *)
Lemma load_short_unflagged_row_is_skipped :
  let rows := [["valid"; "equation"; "name"]; ["0"]] in
  (∃ row, row ∈ tail rows ∧ length row < 3)
  ∧ read_equation_list (Opened rows) = Ok [].
Proof. split; [|done]. exists ["0"]. split; [set_solver|simpl; lia]. Qed.

(** C9. An openable file without any row is rejected: skipping the header
    raises [StopIteration], so no record sequence is returned. *)
Theorem read_equation_list_empty_file :
  read_equation_list (Opened []) = Raise StopIteration.
Proof. reflexivity. Qed.

(** ** File names *)

Lemma clean_filename_safe x : string_forallb is_safe (clean_filename x) = true.
Proof.
  induction x as [|c x IH]; simpl; [done|].
  destruct (is_safe c) eqn:Hc; simpl; [by rewrite Hc|done].
Qed.

Lemma clean_filename_fixed x :
  string_forallb is_safe x = true → clean_filename x = x.
Proof.
  induction x as [|c x IH]; simpl; [done|].
  intros [Hc Hx]%andb_prop. rewrite Hc. by rewrite IH.
Qed.

(** C4. [clean_filename] is idempotent, every character of its result is
    in the class [a-zA-Z0-9_.], and the result is empty exactly when no
    character of the input is in that class. *)
Theorem clean_filename_idempotent_charset (x : string) :
  clean_filename (clean_filename x) = clean_filename x
  ∧ string_forallb is_safe (clean_filename x) = true
  ∧ String.eqb (clean_filename x) "" = string_forallb (fun c => negb (is_safe c)) x.
Proof.
  split_and!.
  - apply clean_filename_fixed, clean_filename_safe.
  - apply clean_filename_safe.
  - induction x as [|c x IH]; simpl; [done|].
    destruct (is_safe c); simpl; done.
Qed.

(** ** Template *)

Lemma app_cons_s c (s t : string) : String c s +:+ t = String c (s +:+ t).
Proof. reflexivity. Qed.

Lemma app_nil_l_s (s : string) : "" +:+ s = s.
Proof. reflexivity. Qed.

Lemma app_assoc_l (s t u : string) : (s +:+ t) +:+ u = s +:+ t +:+ u.
Proof. induction s as [|c s IH]; simpl; [done|]. by rewrite IH. Qed.

Lemma lstrip_hash_fixed c : Py.startswith c "#" = false → Py.lstrip "#" c = c.
Proof.
  destruct c as [|a c]; simpl; [done|].
  unfold Py.lstrip. simpl. rewrite andb_true_r, orb_false_r. by intros ->.
Qed.

(** The document is the fixed text around the colour with its leading
    hashes stripped. *)
Lemma wrap_equation_shape equation color :
  wrap_equation_in_latex equation color
  = before_color_code +:+ Py.lstrip "#" color +:+ after_color_code equation.
Proof.
  unfold wrap_equation_in_latex, before_color_code, after_color_code, template, line.
  generalize (Py.lstrip "#" color). intros code.
  cbn [map String.concat].
  repeat (rewrite !app_assoc_l || rewrite !app_cons_s || rewrite !app_nil_l_s).
  reflexivity.
Qed.

(** C6. Colour prefix equivalence: for a colour [c] without a leading
    hash, the document rendered for #c is the document rendered for c, and
    in both the colour definition reads
    \definecolor{equationcolor}{HTML}{c}: the document is the fixed text
    up to the opening brace of the colour code, then [c] itself, then the
    closing brace and the rest of the document. *)
Theorem wrap_equation_color_prefix (equation c : string) :
  Py.startswith c "#" = false →
  wrap_equation_in_latex equation ("#" +:+ c) = wrap_equation_in_latex equation c
  ∧ Py.lstrip "#" ("#" +:+ c) = c
  ∧ wrap_equation_in_latex equation ("#" +:+ c)
    = before_color_code +:+ c +:+ after_color_code equation
  ∧ wrap_equation_in_latex equation c
    = before_color_code +:+ c +:+ after_color_code equation.
Proof.
  intros Hc.
  assert (Py.lstrip "#" ("#" +:+ c) = Py.lstrip "#" c) as Hstrip by done.
  split_and!.
  - unfold wrap_equation_in_latex. by rewrite Hstrip.
  - rewrite Hstrip. by apply lstrip_hash_fixed.
  - by rewrite wrap_equation_shape, Hstrip, lstrip_hash_fixed.
  - by rewrite wrap_equation_shape, lstrip_hash_fixed.
Qed.

Lemma wrap_equation_color_prefix_witness :
  wrap_equation_in_latex "x^2" "#2B363A" = wrap_equation_in_latex "x^2" "2B363A"
  ∧ Py.lstrip "#" "#2B363A" = "2B363A"
  ∧ wrap_equation_in_latex "x^2" "#2B363A"
    = before_color_code +:+ "2B363A" +:+ after_color_code "x^2"
  ∧ wrap_equation_in_latex "x^2" "2B363A"
    = before_color_code +:+ "2B363A" +:+ after_color_code "x^2".
Proof. apply (wrap_equation_color_prefix "x^2" "2B363A"). reflexivity. Defined.

(** ** Paths and [replace] *)

Section Replace.
Import Py.

Lemma app_cons c (s t : string) : String c s +:+ t = String c (s +:+ t).
Proof. reflexivity. Qed.

Lemma app_assoc_s (s t u : string) : (s +:+ t) +:+ u = s +:+ t +:+ u.
Proof. induction s as [|c s IH]; simpl; [done|]. by rewrite IH. Qed.

Lemma app_nil_r_s (s : string) : s +:+ "" = s.
Proof. induction s as [|c s IH]; simpl; [done|]. by rewrite IH. Qed.

Lemma length_app_s (s t : string) :
  String.length (s +:+ t) = String.length s + String.length t.
Proof. induction s as [|c s IH]; simpl; [done|]. by rewrite IH. Qed.

Lemma length_drop n s : String.length (drop n s) ≤ String.length s.
Proof.
  revert s. induction n as [|n IH]; intros [|c s]; simpl; try lia.
  specialize (IH s). lia.
Qed.

Lemma replace_go_nil fuel old new : replace_go fuel old new "" = "".
Proof. by destruct fuel. Qed.

(** Fuel beyond the length of the string changes nothing: the scan of
    [replace] always ends within [String.length s] steps. *)
Lemma replace_go_fuel old new : old ≠ "" → ∀ fuel1 fuel2 s,
  String.length s ≤ fuel1 → String.length s ≤ fuel2 →
  replace_go fuel1 old new s = replace_go fuel2 old new s.
Proof.
  intros Hold. induction fuel1 as [|fuel1 IH]; intros fuel2 s H1 H2.
  - destruct s; [|simpl in H1; lia]. simpl. by rewrite replace_go_nil.
  - destruct s as [|c s]; [simpl; by rewrite replace_go_nil|].
    destruct fuel2 as [|fuel2]; [simpl in H2; lia|].
    cbn [replace_go]. destruct (startswith (String c s) old).
    + f_equal. destruct old as [|d old]; [done|].
      pose proof (length_drop (String.length old) s).
      apply IH; simpl in *; lia.
    + f_equal. apply IH; simpl in *; lia.
Qed.

(** No occurrence of a pattern without a slash spans a slash. *)
Lemma startswith_sep p : char_in "/" p = false → ∀ u v,
  startswith (u +:+ "/" +:+ v) p = startswith u p.
Proof.
  induction p as [|d p IH]; intros Hp u v; simpl in *; [done|].
  apply orb_false_elim in Hp as [Hd Hp].
  destruct u as [|c u]; simpl.
  - by rewrite Hd.
  - by rewrite IH.
Qed.

Lemma contains_cons p c s :
  contains p (String c s) = startswith (String c s) p || contains p s.
Proof. reflexivity. Qed.

Lemma contains_nil p : p ≠ "" → contains p "" = false.
Proof. by destruct p. Qed.

Lemma contains_sep p u v :
  p ≠ "" → char_in "/" p = false →
  contains p (u +:+ "/" +:+ v) = contains p u || contains p v.
Proof.
  intros Hne Hp. induction u as [|c u IH].
  - change ("" +:+ "/" +:+ v) with (String "/" v).
    rewrite contains_cons, contains_nil by done.
    change (String "/" v) with ("" +:+ "/" +:+ v).
    rewrite startswith_sep by done.
    by destruct p.
  - rewrite app_cons, !contains_cons, IH.
    rewrite <- app_cons, startswith_sep by done.
    by rewrite orb_assoc.
Qed.

Lemma endswith_sep a : endswith a "/" = true → ∃ u, a = u +:+ "/".
Proof.
  induction a as [|c a IH]; [done|].
  change (endswith (String c a) "/")
    with (String.eqb (String c a) "/" || endswith a "/").
  intros [Heq%String.eqb_eq|Hend]%orb_prop.
  - exists "". by rewrite Heq.
  - destruct (IH Hend) as [u ->]. by exists (String c u).
Qed.

Lemma os_path_join_prefix a b : os_path_join a b = join_prefix a b +:+ b.
Proof.
  unfold os_path_join, join_prefix.
  destruct (startswith b "/"); [done|].
  destruct (String.eqb a "" || endswith a "/"); [done|].
  by rewrite app_assoc_s.
Qed.

Lemma startswith_app_ext base ext ext' :
  startswith ext "/" = false → startswith ext' "/" = false →
  startswith (base +:+ ext) "/" = startswith (base +:+ ext') "/".
Proof. destruct base as [|c base]; simpl; [congruence|done]. Qed.

Lemma join_prefix_ext a base ext ext' :
  startswith ext "/" = false → startswith ext' "/" = false →
  join_prefix a (base +:+ ext) = join_prefix a (base +:+ ext').
Proof.
  intros H1 H2. unfold join_prefix.
  by rewrite (startswith_app_ext base ext ext').
Qed.

Lemma contains_join_prefix p a b v :
  p ≠ "" → char_in "/" p = false →
  contains p a = false → contains p v = false →
  contains p (join_prefix a b +:+ v) = false.
Proof.
  intros Hne Hp Ha Hv. unfold join_prefix.
  destruct (startswith b "/"); [done|].
  destruct (String.eqb_spec a "") as [->|_]; simpl; [done|].
  destruct (endswith a "/") eqn:Hend.
  - apply endswith_sep in Hend as [u ->].
    rewrite app_assoc_s, contains_sep by done.
    rewrite <- (app_nil_r_s (u +:+ "/")) in Ha.
    rewrite app_assoc_s, contains_sep in Ha by done.
    apply orb_false_elim in Ha as [-> _]. done.
  - rewrite app_assoc_s, contains_sep by done. by rewrite Ha, Hv.
Qed.

(** The only occurrence of [.tex] in [u.tex], for [u] free of it, is the
    last one: the pattern starts with a dot and has no other. *)
Lemma startswith_app_tex u :
  u ≠ "" → startswith (u +:+ ".tex") ".tex" = startswith u ".tex".
Proof.
  intros Hne.
  destruct u as [|a [|b [|c [|d u]]]]; simpl; try done;
    rewrite ?andb_false_r; done.
Qed.

Lemma replace_go_tex_suffix new u : ∀ fuel,
  String.length (u +:+ ".tex") ≤ fuel →
  contains ".tex" u = false →
  replace_go fuel ".tex" new (u +:+ ".tex") = u +:+ new.
Proof.
  induction u as [|c u IH]; intros fuel Hfuel Hu.
  - destruct fuel as [|fuel]; simpl in Hfuel; [lia|].
    simpl. by rewrite replace_go_nil, app_nil_r_s.
  - destruct fuel as [|fuel]; [simpl in Hfuel; lia|].
    rewrite contains_cons in Hu. apply orb_false_elim in Hu as [Hsw Hu].
    rewrite app_cons. cbn [replace_go].
    rewrite <- app_cons, startswith_app_tex, Hsw by done.
    rewrite app_cons. f_equal. apply IH; [|done].
    rewrite app_cons in Hfuel. simpl in Hfuel. lia.
Qed.

Lemma replace_tex_suffix new u :
  contains ".tex" u = false → replace ".tex" new (u +:+ ".tex") = u +:+ new.
Proof. intros Hu. unfold replace. by apply replace_go_tex_suffix. Qed.

(** What [replace] leaves behind starts like its argument, for prefixes
    without a dot. *)
Lemma startswith_replace_go new p :
  startswith new "." = true → char_in "." p = false → ∀ fuel s,
  startswith (replace_go fuel ".tex" new s) p = startswith s p.
Proof.
  intros Hnew. induction p as [|d p IH]; intros Hp fuel s; [done|].
  simpl in Hp. apply orb_false_elim in Hp as [Hd Hp].
  destruct fuel as [|fuel]; [done|].
  destruct s as [|c s]; [done|].
  cbn [replace_go]. destruct (startswith (String c s) ".tex") eqn:Hsw.
  - destruct new as [|n new]; [done|].
    simpl in Hnew, Hsw. rewrite andb_true_r in Hnew.
    apply andb_prop in Hsw as [Hc _].
    apply Ascii.eqb_eq in Hnew as ->. apply Ascii.eqb_eq in Hc as ->.
    simpl. by rewrite Hd.
  - simpl. by rewrite IH.
Qed.

Lemma contains_replace_go new :
  new = ".pdf" ∨ new = ".png" → ∀ fuel s,
  String.length s ≤ fuel →
  contains ".tex" (replace_go fuel ".tex" new s) = false.
Proof.
  intros Hnew. induction fuel as [|fuel IH]; intros s Hfuel.
  - destruct s; [done|simpl in Hfuel; lia].
  - destruct s as [|c s]; [done|].
    cbn [replace_go]. destruct (startswith (String c s) ".tex") eqn:Hsw.
    + set (R := replace_go fuel ".tex" new (drop _ _)).
      assert (contains ".tex" R = false) as HR.
      { apply IH. pose proof (length_drop 3 s). simpl in *. lia. }
      clearbody R. destruct Hnew as [-> | ->]; simpl; by rewrite HR.
    + rewrite contains_cons, IH by (simpl in Hfuel; lia).
      rewrite orb_false_r.
      change (startswith (String c ?t) ".tex")
        with (Ascii.eqb c "." && startswith t "tex") in *.
      rewrite (startswith_replace_go new "tex"); [done| |done].
      by destruct Hnew as [-> | ->].
Qed.

Lemma startswith_app_l p : ∀ u v,
  startswith u p = true → startswith (u +:+ v) p = true.
Proof.
  induction p as [|d p IH]; intros u v; [done|].
  destruct u as [|c u]; simpl; [done|].
  intros [-> Hu]%andb_prop. simpl. by apply IH.
Qed.

Lemma contains_app_l p u v : contains p u = true → contains p (u +:+ v) = true.
Proof.
  induction u as [|c u IH].
  - destruct p; [|done]. intros _. by destruct v.
  - rewrite app_cons, !contains_cons.
    intros [Hsw|Hu]%orb_prop.
    + rewrite <- app_cons, startswith_app_l by done. done.
    + rewrite IH by done. apply orb_true_r.
Qed.

Lemma contains_app_r p u v : contains p v = true → contains p (u +:+ v) = true.
Proof.
  intros Hv. induction u as [|c u IH]; [done|].
  rewrite app_cons, contains_cons, IH. apply orb_true_r.
Qed.

Lemma replace_join_ext new dir base :
  startswith new "/" = false →
  contains ".tex" dir = false → contains ".tex" base = false →
  replace ".tex" new (os_path_join dir (base +:+ ".tex"))
  = os_path_join dir (base +:+ new).
Proof.
  intros Hnew Hdir Hbase.
  rewrite !os_path_join_prefix.
  rewrite (join_prefix_ext dir base new ".tex") by done.
  rewrite <- !app_assoc_s. apply replace_tex_suffix.
  by apply contains_join_prefix.
Qed.

Lemma replace_join_tex_base new dir base :
  new = ".pdf" ∨ new = ".png" →
  contains ".tex" base = true →
  replace ".tex" new (os_path_join dir (base +:+ ".tex"))
  ≠ os_path_join dir (base +:+ new).
Proof.
  intros Hnew Hbase Heq.
  assert (contains ".tex" (os_path_join dir (base +:+ new)) = true) as Hin.
  { rewrite os_path_join_prefix. by apply contains_app_r, contains_app_l. }
  rewrite <- Heq in Hin. unfold replace in Hin.
  by rewrite contains_replace_go in Hin.
Qed.
End Replace.

(** C10, as amended. When the output directory path is free of the
    substring .tex, the page and image paths of the document
    dir/base.tex are dir/base.pdf and dir/base.png exactly when the base
    name is free of .tex as well. *)
Theorem artifact_paths_same_stem (dir base : string) :
  Py.contains ".tex" dir = false →
  (pdf_file_path (Py.os_path_join dir (base +:+ ".tex"))
   = Py.os_path_join dir (base +:+ ".pdf")
   ↔ Py.contains ".tex" base = false)
  ∧ (png_file_path (Py.os_path_join dir (base +:+ ".tex"))
     = Py.os_path_join dir (base +:+ ".png")
     ↔ Py.contains ".tex" base = false).
Proof.
  intros Hdir. unfold pdf_file_path, png_file_path.
  split; (split;
    [ intros Heq; destruct (Py.contains ".tex" base) eqn:Hbase; [|done];
      exfalso; revert Heq; apply replace_join_tex_base; auto
    | intros Hbase; by apply replace_join_ext ]).
Qed.

Lemma artifact_paths_same_stem_witness :
  pdf_file_path (Py.os_path_join "/srv/out" ("square_1" +:+ ".tex")) = "/srv/out/square_1.pdf"
  ∧ png_file_path (Py.os_path_join "/srv/out" ("square_1" +:+ ".tex")) = "/srv/out/square_1.png".
Proof.
  destruct (artifact_paths_same_stem "/srv/out" "square_1") as [[_ Hpdf] [_ Hpng]];
    [reflexivity|].
  split; [apply Hpdf|apply Hpng]; reflexivity.
Defined.

(** C10 as stated fails: with a base name free of .tex but an output
    directory whose path contains .tex, the replacement rewrites the
    directory part too. *)
Lemma tex_in_output_path_breaks_stem :
  Py.contains ".tex" "square" = false
  ∧ pdf_file_path (Py.os_path_join "/srv/notes.tex/out" ("square" +:+ ".tex"))
    = "/srv/notes.pdf/out/square.pdf"
  ∧ Py.os_path_join "/srv/notes.tex/out" ("square" +:+ ".pdf")
    = "/srv/notes.tex/out/square.pdf"
  ∧ png_file_path (Py.os_path_join "/srv/notes.tex/out" ("square" +:+ ".tex"))
    = "/srv/notes.png/out/square.png".
Proof. by vm_compute. Qed.

(** ** The allocator *)

Section Allocate.
Variable E : env.
Variable self : EquationProcessor.

Let dir := output_path self.

Lemma app_inj_r (t s s' : string) : s +:+ t = s' +:+ t → s = s'.
Proof.
  revert s'. induction s as [|c s IH]; intros [|c' s'] Heq; simpl in Heq.
  - done.
  - apply (f_equal String.length) in Heq. simpl in Heq.
    rewrite length_app_s in Heq. lia.
  - apply (f_equal String.length) in Heq. simpl in Heq.
    rewrite length_app_s in Heq. lia.
  - injection Heq as -> Heq. f_equal. by apply IH.
Qed.

Lemma numbered_path_inj base : Inj (=) (=) (λ k, Py.os_path_join dir (numbered base k)).
Proof.
  intros j k Heq. unfold numbered in Heq.
  rewrite !os_path_join_prefix in Heq.
  rewrite (join_prefix_ext dir base ("_" +:+ pretty j +:+ ".tex")
             ("_" +:+ pretty k +:+ ".tex")) in Heq by done.
  apply (inj (String.app _)) in Heq.
  apply (inj (String.app _)) in Heq.
  change ("_" +:+ ?s) with (String "_" s) in Heq.
  injection Heq as Heq. apply app_inj_r in Heq.
  by apply (inj pretty) in Heq.
Qed.

Lemma probe_eq fuel fs base tex inc :
  probe self fuel fs base tex inc
  = if bool_decide (Py.os_path_join dir tex ∈ fs) then
      match fuel with
      | 0 => None
      | S fuel' => probe self fuel' fs base (numbered base inc) (inc + 1)
      end
    else Some tex.
Proof. by destruct fuel. Qed.

Lemma probe_None fs base : ∀ fuel tex inc,
  probe self fuel fs base tex inc = None →
  ∀ j, inc ≤ j < inc + fuel → Py.os_path_join dir (numbered base j) ∈ fs.
Proof.
  induction fuel as [|fuel IH]; intros tex inc Hnone j Hj; [lia|].
  rewrite probe_eq in Hnone. case_bool_decide; [|done].
  destruct (decide (j = inc)) as [->|Hne].
  - rewrite probe_eq in Hnone. by case_bool_decide.
  - apply (IH _ _ Hnone). lia.
Qed.

Lemma probe_Some fs base name : ∀ fuel tex inc,
  probe self fuel fs base tex inc = Some name →
  ((Py.os_path_join dir tex ∉ fs) ∧ name = tex)
  ∨ (Py.os_path_join dir tex ∈ fs
     ∧ (∃ k, inc ≤ k ∧ name = numbered base k
            ∧ (Py.os_path_join dir name ∉ fs)
            ∧ (∀ j, inc ≤ j < k → Py.os_path_join dir (numbered base j) ∈ fs))).
Proof.
  induction fuel as [|fuel IH]; intros tex inc Hsome; rewrite probe_eq in Hsome;
    case_bool_decide as Htex; simplify_eq; auto.
  right. split; [done|].
  destruct (IH _ _ Hsome) as [[Hfree ->]|(Hin & k & Hk & -> & Hfree & Hbelow)].
  - exists inc. split_and!; [lia|done|done|]. intros j Hj. lia.
  - exists k. split_and!; [lia|done|done|].
    intros j Hj. destruct (decide (j = inc)) as [->|Hne]; [done|].
    apply Hbelow. lia.
Qed.

(** The loop ends: one turn more than there are paths is enough. *)
Lemma probe_total fs base tex inc :
  is_Some (probe self (S (size fs)) fs base tex inc).
Proof.
  destruct (probe self (S (size fs)) fs base tex inc) eqn:Hp; [by eexists|].
  exfalso.
  pose proof (probe_None _ _ _ _ _ Hp) as Hall.
  set (f := λ k, Py.os_path_join dir (numbered base k)).
  set (l := f <$> seq inc (S (size fs))).
  assert (NoDup l) as Hnd.
  { eapply @NoDup_fmap_2; [apply numbered_path_inj|apply NoDup_seq]. }
  assert (list_to_set (C := gset string) l ⊆ fs) as Hsub.
  { intros p [k [-> Hk]]%elem_of_list_to_set%list_elem_of_fmap.
    apply Hall. apply elem_of_seq in Hk. lia. }
  apply subseteq_size in Hsub.
  rewrite size_list_to_set in Hsub by done.
  unfold l in Hsub. rewrite length_fmap, length_seq in Hsub. lia.
Qed.

Lemma probe_first_free fs base name :
  probe self (S (size fs)) fs base (base +:+ ".tex") 1 = Some name →
  first_free dir fs base name ∧ Py.os_path_join dir name ∉ fs.
Proof.
  intros Hp. apply probe_Some in Hp. unfold first_free.
  destruct Hp as [[Hfree ->]|(Hin & k & Hk & -> & Hfree & Hbelow)].
  - split; [by left|done].
  - split; [|done]. right. split; [done|]. by exists k.
Qed.

Lemma allocate_ok base content w :
  (∀ p fs, write_error E p fs = None) →
  ∃ name,
    allocate E self base content w
    = (Ok name, {| files := {[Py.os_path_join dir name]} ∪ files w;
                   trace := trace w ++ [FileWritten (Py.os_path_join dir name) content] |})
    ∧ first_free dir (files w) base name
    ∧ Py.os_path_join dir name ∉ files w.
Proof.
  intros Hwrite.
  destruct (probe_total (files w) base (base +:+ ".tex") 1) as [name Hp].
  exists name. split; [|by apply probe_first_free].
  unfold allocate, get_files, mbind, M_bind, bind. rewrite Hp.
  unfold write_file. by rewrite Hwrite.
Qed.

End Allocate.

(** C5. Collision-free allocation: when the writes succeed, allocating a
    document name for a candidate base returns the candidate itself if
    its document does not exist in the output directory and otherwise the
    first numbered candidate whose document does not exist; the document
    of the returned name did not exist before; and a second allocation
    for the same candidate in the same directory returns another name. *)
Theorem allocate_collision_free (E : env) (self : EquationProcessor)
    (base content1 content2 : string) (w : world) :
  (∀ p fs, write_error E p fs = None) →
  ∃ name1 name2 w1 w2,
    allocate E self base content1 w = (Ok name1, w1)
    ∧ allocate E self base content2 w1 = (Ok name2, w2)
    ∧ first_free (output_path self) (files w) base name1
    ∧ (Py.os_path_join (output_path self) name1 ∉ files w)
    ∧ first_free (output_path self) (files w1) base name2
    ∧ (Py.os_path_join (output_path self) name2 ∉ files w1)
    ∧ name1 ≠ name2.
Proof.
  intros Hwrite.
  destruct (allocate_ok E self base content1 w Hwrite) as (name1 & H1 & Hff1 & Hfree1).
  set (w1 := {| files := _; trace := _ |}) in H1.
  destruct (allocate_ok E self base content2 w1 Hwrite) as (name2 & H2 & Hff2 & Hfree2).
  eexists name1, name2, w1, _. split_and!; try done.
  intros ->. apply Hfree2. simpl. apply elem_of_union_l, elem_of_singleton. done.
Qed.

Lemma allocate_collision_free_witness :
  ∃ name1 name2 w1 w2,
    allocate sample_machine sample_processor "square" "one" empty_world = (Ok name1, w1)
    ∧ allocate sample_machine sample_processor "square" "two" w1 = (Ok name2, w2)
    ∧ first_free "/srv/out" ∅ "square" name1
    ∧ (Py.os_path_join "/srv/out" name1 ∉ files empty_world)
    ∧ first_free "/srv/out" (files w1) "square" name2
    ∧ (Py.os_path_join "/srv/out" name2 ∉ files w1)
    ∧ name1 ≠ name2.
Proof.
  apply (allocate_collision_free sample_machine sample_processor "square" "one" "two"
           empty_world).
  intros p fs. reflexivity.
Defined.

(** Two records that ask for the same name get the documents square.tex
    and square_1.tex. *)
Example duplicate_names_are_numbered :
  fst (allocate sample_machine sample_processor "square" "one" empty_world)
  = Ok "square.tex"
  ∧ fst (allocate sample_machine sample_processor "square" "two"
           (snd (allocate sample_machine sample_processor "square" "one" empty_world)))
    = Ok "square_1.tex".
Proof. split; vm_compute; reflexivity. Qed.

(** ** The per-record pipeline *)

Section Pipeline.
Variable E : env.
Variable self : EquationProcessor.

(** [compile_latex_file] returns normally whatever the compiler did. *)
Lemma compile_latex_file_returns tex_file w :
  compile_latex_file E self tex_file w
  = (Ok tt,
     {| files := files_after (spawn E (xelatex_argv E self tex_file) (files w)) (files w);
        trace := trace w ++ [Spawned (xelatex_argv E self tex_file);
                             compile_log tex_file
                               (spawn E (xelatex_argv E self tex_file) (files w))] |}).
Proof.
  unfold compile_latex_file, try_except, mbind, M_bind, bind, run_process.
  destruct (spawn E _ (files w)) as [k|returncode full_output fs']; simpl.
  - unfold logging_error, emit. simpl. by rewrite <- app_assoc.
  - case_bool_decide; unfold logging_error, logging_info, emit; simpl;
      by rewrite <- app_assoc.
Qed.

(** [convert_pdf_to_png] starts by spawning the rasterizer. *)
Lemma convert_pdf_to_png_spawns pdf_file png_file w :
  ∃ r w' t,
    convert_pdf_to_png E self pdf_file png_file w = (r, w')
    ∧ trace w' = trace w ++ Spawned (magick_argv self pdf_file png_file) :: t.
Proof.
  unfold convert_pdf_to_png, try_except, mbind, M_bind, bind, run_process.
  destruct (spawn E _ (files w)) as [k|returncode full_output fs']; simpl.
  - by eexists _, _, [].
  - case_bool_decide; simpl; unfold logging_error, logging_info, emit; simpl;
      eexists _, _, [_]; (split; [done|]); by rewrite <- app_assoc.
Qed.

(** A rasterizer that could be launched never makes
    [convert_pdf_to_png] raise, whatever its exit code. *)
Lemma convert_pdf_to_png_launched pdf_file png_file w returncode output fs' :
  spawn E (magick_argv self pdf_file png_file) (files w) = Exited returncode output fs' →
  ∃ w', convert_pdf_to_png E self pdf_file png_file w = (Ok tt, w').
Proof.
  intros Hspawn.
  unfold convert_pdf_to_png, try_except, mbind, M_bind, bind, run_process.
  rewrite Hspawn. simpl. case_bool_decide; simpl; by eexists.
Qed.

(** The failures the loop isolates: with writes that succeed and a
    rasterizer that can be launched, the loop over the records returns
    normally, whatever the compiler does (missing, any exit code) and
    whatever the exit code of the rasterizer. *)
Lemma process_records_returns equations :
  (∀ p fs, write_error E p fs = None) →
  (∀ pdf_file png_file fs, ∃ returncode output fs',
      spawn E (magick_argv self pdf_file png_file) fs = Exited returncode output fs') →
  ∀ i w, ∃ w', process_records E self i equations w = (Ok tt, w').
Proof.
  intros Hwrite Hmagick.
  induction equations as [|[equation filename] equations IH]; intros i w.
  - by eexists.
  - cbn [process_records]. unfold process_record.
    destruct (allocate_ok E self
                (clean_filename
                   (if String.eqb filename "" then "equation_" +:+ pretty i else filename))
                (wrap_equation_in_latex equation (color self)) w Hwrite)
      as (tex_filename & Halloc & _).
    unfold mbind, M_bind. unfold bind at 1 2 3. rewrite Halloc.
    rewrite compile_latex_file_returns.
    set (w2 := {| files := _; trace := _ |}).
    destruct (Hmagick (pdf_file_path (Py.os_path_join (output_path self) tex_filename))
                (png_file_path (Py.os_path_join (output_path self) tex_filename))
                (files w2)) as (returncode & output & fs' & Hspawn).
    destruct (convert_pdf_to_png_launched _ _ w2 _ _ _ Hspawn) as [w3 ->].
    apply IH.
Qed.

End Pipeline.

(** C7. Rasterize continuation is not short-circuited: once the document
    of a record has been written, the compiler is spawned, its outcome
    (launch failure, nonzero or zero exit code) is logged, and the
    rasterizer is spawned next on the page and image paths of the
    document, whatever that outcome was. *)
Theorem rasterize_after_compile (E : env) (self : EquationProcessor)
    (i : nat) (equation filename : string) (w w1 : world) (tex_filename : string) :
  allocate E self
    (clean_filename (if String.eqb filename "" then "equation_" +:+ pretty i else filename))
    (wrap_equation_in_latex equation (color self)) w
  = (Ok tex_filename, w1) →
  ∃ r w' t,
    process_record E self i (equation, filename) w = (r, w')
    ∧ trace w'
      = trace w1
        ++ [Spawned (xelatex_argv E self (Py.os_path_join (output_path self) tex_filename));
            compile_log (Py.os_path_join (output_path self) tex_filename)
              (spawn E (xelatex_argv E self (Py.os_path_join (output_path self) tex_filename))
                 (files w1));
            Spawned (magick_argv self
                       (pdf_file_path (Py.os_path_join (output_path self) tex_filename))
                       (png_file_path (Py.os_path_join (output_path self) tex_filename)))]
        ++ t.
Proof.
  intros Halloc.
  unfold process_record. unfold mbind at 1. unfold M_bind, bind at 1. rewrite Halloc.
  unfold mbind at 1. unfold M_bind, bind at 1.
  rewrite compile_latex_file_returns.
  set (w2 := {| files := _; trace := _ |}).
  destruct (convert_pdf_to_png_spawns E self
              (pdf_file_path (Py.os_path_join (output_path self) tex_filename))
              (png_file_path (Py.os_path_join (output_path self) tex_filename)) w2)
    as (r & w' & t & Hconv & Htrace).
  exists r, w', t. split; [done|].
  rewrite Htrace. unfold w2. simpl. by rewrite <- !app_assoc.
Qed.

Lemma rasterize_after_compile_witness :
  ∃ r w' t,
    process_record failing_compiler sample_processor 1 ("x^2", "square") empty_world = (r, w')
    ∧ trace w'
      = [FileWritten "/srv/out/square.tex" (wrap_equation_in_latex "x^2" "#2B363A")]
        ++ [Spawned ["xelatex"; "-output-directory=/srv/out"; "/srv/out/square.tex"];
            Log ERROR (CompilerErrors ["! Undefined control sequence."]);
            Spawned ["magick"; "convert"; "-density"; "600"; "-quality"; "100";
                     "/srv/out/square.pdf"; "/srv/out/square.png"]]
        ++ t.
Proof.
  apply (rasterize_after_compile failing_compiler sample_processor
           1 "x^2" "square" empty_world
           {| files := {["/srv/out/square.tex"]};
              trace := [FileWritten "/srv/out/square.tex"
                          (wrap_equation_in_latex "x^2" "#2B363A")] |}
           "square.tex").
  vm_compute. reflexivity.
Defined.

(** C1, at the input where the pipeline breaks it. On a machine without
    the rasterizer, the launch failure of the first record leaves
    [convert_pdf_to_png] as [FileNotFoundError] and ends the run: nothing
    is logged for it, the second record is never written or compiled, and
    the sweep does not run. *)
Theorem missing_rasterizer_ends_batch :
  fst (run_pipeline no_magick sample_processor
         [("x^2", "square"); ("y^2", "circle")] empty_world)
  = Raise (OSError ENOENT)
  ∧ trace (snd (run_pipeline no_magick sample_processor
                  [("x^2", "square"); ("y^2", "circle")] empty_world))
    = [FileWritten "/srv/out/square.tex" (wrap_equation_in_latex "x^2" "#2B363A");
       Spawned ["xelatex"; "-output-directory=/srv/out"; "/srv/out/square.tex"];
       Log INFO (CompiledOk "/srv/out/square.tex");
       Spawned ["magick"; "convert"; "-density"; "600"; "-quality"; "100";
                "/srv/out/square.pdf"; "/srv/out/square.png"]].
Proof. split; vm_compute; reflexivity. Qed.

(** ** The sweep *)

Section Sweep.
Variable E : env.
Variable self : EquationProcessor.

Lemma remove_all_app pre rest : ∀ d w,
  remove_all E (pre ++ rest) d w = (d' ← remove_all E pre d; remove_all E rest d') w.
Proof.
  induction pre as [|p pre IH]; intros d w; [done|].
  simpl. unfold mbind, M_bind, bind in *.
  destruct (os_remove E p w) as [[[]|e|] w1]; [|done..].
  apply IH.
Qed.

Lemma cleanup_dir_remove_all root names : ∀ d w,
  cleanup_dir E root names d w
  = remove_all E (map (Py.os_path_join root) (List.filter is_intermediate names)) d w.
Proof.
  induction names as [|file names IH]; intros d w; [done|].
  cbn [cleanup_dir List.filter].
  destruct (is_intermediate file); [|apply IH].
  cbn [map remove_all]. unfold mbind, M_bind, bind.
  destruct (os_remove E _ w) as [[[]|e|] w1]; [|done..].
  apply IH.
Qed.

Lemma cleanup_walk_remove_all entries : ∀ d w,
  cleanup_walk E entries d w = remove_all E (sweep_targets entries) d w.
Proof.
  induction entries as [|[[root dirs] names] entries IH]; intros d w; [done|].
  simpl. rewrite remove_all_app. unfold mbind, M_bind, bind.
  rewrite cleanup_dir_remove_all.
  destruct (remove_all E _ d w) as [[d'|e|] w1]; [|done..].
  apply IH.
Qed.

(** Removals that all succeed take every target away and count it. *)
Lemma remove_all_ok pre : ∀ d w,
  NoDup pre →
  Forall (λ q, q ∈ files w ∧ remove_error E q = None) pre →
  remove_all E pre d w
  = (Ok (d + length pre), {| files := files w ∖ list_to_set pre; trace := trace w |}).
Proof.
  induction pre as [|q pre IH]; intros d w Hnd Hall.
  - simpl. unfold ret. rewrite Nat.add_0_r, difference_empty_L. by destruct w.
  - apply NoDup_cons in Hnd as [Hq Hnd]. apply Forall_cons in Hall as [[Hin Hrm] Hall].
    simpl. unfold mbind, M_bind, bind, os_remove.
    rewrite bool_decide_eq_true_2, Hrm by done.
    rewrite IH; [|done|].
    + simpl. rewrite difference_difference_l_L.
      by replace (d + 1 + length pre) with (d + S (length pre)) by lia.
    + simpl. apply Forall_forall. intros x Hx.
      rewrite Forall_forall in Hall. destruct (Hall x Hx) as [Hxin Hxrm].
      split; [|done]. apply elem_of_difference. split; [done|].
      apply not_elem_of_singleton. by intros ->.
Qed.

(** A removal that fails ends the loop there, with the world as it was. *)
Lemma remove_all_fails p post : ∀ d w,
  p ∉ files w ∨ is_Some (remove_error E p) →
  ∃ e, remove_all E (p :: post) d w = (Raise e, w).
Proof.
  intros d w Hfail. simpl. unfold mbind, M_bind, bind, os_remove.
  case_bool_decide as Hin.
  - destruct Hfail as [?|[k Hk]]; [done|]. rewrite Hk. by eexists.
  - by eexists.
Qed.

(** A removal the system refuses ends the loop with that error. *)
Lemma remove_all_refused p post k : ∀ d w,
  p ∈ files w → remove_error E p = Some k →
  remove_all E (p :: post) d w = (Raise (OSError k), w).
Proof.
  intros d w Hin Hk. simpl. unfold mbind, M_bind, bind, os_remove.
  by rewrite bool_decide_eq_true_2, Hk.
Qed.

(** So does the removal of a path that is not there. *)
Lemma remove_all_missing p post : ∀ d w,
  p ∉ files w →
  remove_all E (p :: post) d w = (Raise (OSError ENOENT), w).
Proof.
  intros d w Hin. simpl. unfold mbind, M_bind, bind, os_remove.
  by rewrite bool_decide_eq_false_2.
Qed.

End Sweep.

(** C8, as amended. The sweep removes the intermediate files in the order
    the walk lists them.  When every removal succeeds, all of them are
    gone and their number is logged at the end.  A removal that fails
    ends the sweep with its own error (the [OSError] the removal was
    refused with, or [FileNotFoundError] for a listed path that is not
    there): the exception leaves [cleanup_files], the files met before it
    have been removed, the failing file and the files after it stay, and
    no count is logged. *)
Theorem cleanup_files_stops_at_failure (E : env) (self : EquationProcessor) (w : world)
    (pre rest : list string) :
  sweep_targets (walk E (output_path self) (files w)) = pre ++ rest →
  NoDup pre →
  Forall (λ q, q ∈ files w ∧ remove_error E q = None) pre →
  (rest = [] →
   cleanup_files E self w
   = (Ok tt, {| files := files w ∖ list_to_set pre;
                trace := trace w ++ [Log INFO (DeletedCount (length pre))] |}))
  ∧ (∀ p post k, rest = p :: post →
       p ∈ files w → p ∉ pre → remove_error E p = Some k →
       cleanup_files E self w
       = (Raise (OSError k), {| files := files w ∖ list_to_set pre; trace := trace w |}))
  ∧ (∀ p post, rest = p :: post →
       p ∉ files w ∖ list_to_set pre →
       cleanup_files E self w
       = (Raise (OSError ENOENT),
          {| files := files w ∖ list_to_set pre; trace := trace w |})).
Proof.
  intros Htargets Hnd Hall.
  unfold cleanup_files, get_files. unfold mbind at 1 3 5. unfold M_bind, bind at 1 3 5.
  unfold mbind, M_bind, bind.
  rewrite cleanup_walk_remove_all, Htargets, remove_all_app.
  unfold mbind, M_bind, bind. rewrite remove_all_ok by done.
  split_and!.
  - intros ->. done.
  - intros p post k -> Hin Hpre Hk.
    rewrite (remove_all_refused E p post k); [done| |done].
    cbn [files]. apply elem_of_difference. split; [done|].
    by rewrite elem_of_list_to_set.
  - intros p post -> Hgone.
    by rewrite (remove_all_missing E p post).
Qed.

Lemma cleanup_files_stops_at_failure_witness :
  cleanup_files sample_machine sample_processor unswept_world
  = (Ok tt,
     {| files := files unswept_world
                 ∖ list_to_set ["/srv/out/a.log"; "/srv/out/a.aux"; "/srv/out/old/b.tex"];
        trace := [Log INFO (DeletedCount 3)] |})
  ∧ cleanup_files protected_aux sample_processor unswept_world
    = (Raise (OSError EACCES),
       {| files := files unswept_world ∖ list_to_set ["/srv/out/a.log"];
          trace := [] |}).
Proof.
  split.
  - refine (proj1 (cleanup_files_stops_at_failure sample_machine sample_processor
                     unswept_world
                     ["/srv/out/a.log"; "/srv/out/a.aux"; "/srv/out/old/b.tex"] []
                     _ _ _) _).
    + reflexivity.
    + apply (bool_decide_unpack _). vm_compute. exact I.
    + apply (bool_decide_unpack _). vm_compute. exact I.
    + reflexivity.
  - refine (proj1 (proj2 (cleanup_files_stops_at_failure protected_aux sample_processor
                            unswept_world
                            ["/srv/out/a.log"] ["/srv/out/a.aux"; "/srv/out/old/b.tex"]
                            _ _ _))
              "/srv/out/a.aux" ["/srv/out/old/b.tex"] EACCES _ _ _ _).
    + reflexivity.
    + apply (bool_decide_unpack _). vm_compute. exact I.
    + apply (bool_decide_unpack _). vm_compute. exact I.
    + reflexivity.
    + apply (bool_decide_unpack _). vm_compute. exact I.
    + apply (bool_decide_unpack _). vm_compute. exact I.
    + reflexivity.
Defined.

(** C8 as stated fails: when the first of three files cannot be removed,
    the sweep raises [PermissionError]; the intermediate file a.aux, met
    later, is still there, and no count has been logged. *)
Lemma protected_file_ends_sweep :
  fst (cleanup_files protected_log sample_processor unswept_world)
  = Raise (OSError EACCES)
  ∧ bool_decide
      ("/srv/out/a.aux" ∈ files (snd (cleanup_files protected_log sample_processor
                                         unswept_world)))
    = true
  ∧ trace (snd (cleanup_files protected_log sample_processor unswept_world)) = [].
Proof. split_and!; vm_compute; reflexivity. Qed.

(** * Further properties *)

(** ** The two external stages *)

(** X1. [compile_latex_file] never raises: it spawns the compiler once,
    logs exactly one record and returns; the record is at error level
    unless the compiler was launched and exited with code 0. *)
Theorem compile_latex_file_never_raises (E : env) (self : EquationProcessor)
    (tex_file : string) (w : world) :
  ∃ w' lvl msg,
    compile_latex_file E self tex_file w = (Ok tt, w')
    ∧ trace w' = trace w ++ [Spawned (xelatex_argv E self tex_file); Log lvl msg]
    ∧ (lvl = ERROR
       ∨ ∃ output fs',
           spawn E (xelatex_argv E self tex_file) (files w) = Exited 0 output fs').
Proof.
  rewrite compile_latex_file_returns. unfold compile_log.
  destruct (spawn E (xelatex_argv E self tex_file) (files w))
    as [k|returncode output fs'].
  - eexists _, ERROR, _. split_and!; [done|done|by left].
  - case_bool_decide as Hcode.
    + eexists _, ERROR, _. split_and!; [done|done|by left].
    + eexists _, INFO, _. split_and!; [done|done|]. right.
      subst returncode. by eexists _, _.
Qed.

(** The three ways [convert_pdf_to_png] can end. *)
Lemma convert_pdf_to_png_cases (E : env) (self : EquationProcessor)
    (pdf_file png_file : string) (w : world) :
  convert_pdf_to_png E self pdf_file png_file w
  = match spawn E (magick_argv self pdf_file png_file) (files w) with
    | LaunchFailed k =>
        (Raise (OSError k),
         {| files := files w;
            trace := trace w ++ [Spawned (magick_argv self pdf_file png_file)] |})
    | Exited returncode _ fs' =>
        (Ok tt,
         {| files := fs';
            trace := trace w ++ [Spawned (magick_argv self pdf_file png_file);
                                 convert_log pdf_file returncode] |})
    end.
Proof.
  unfold convert_pdf_to_png, try_except, mbind, M_bind, bind, run_process, convert_log.
  destruct (spawn E _ (files w)) as [k|returncode output fs']; simpl; [done|].
  case_bool_decide; simpl; unfold logging_error, logging_info, emit; simpl;
    by rewrite <- app_assoc.
Qed.

(** X2. [convert_pdf_to_png] spawns the rasterizer once.  A rasterizer
    that exits is logged (an error carrying [CalledProcessError] for a
    nonzero code) and the call returns; one that cannot be launched is
    not logged and its [OSError] leaves the call. *)
Theorem convert_pdf_to_png_outcomes (E : env) (self : EquationProcessor)
    (pdf_file png_file : string) (w : world) :
  convert_pdf_to_png E self pdf_file png_file w
  = match spawn E (magick_argv self pdf_file png_file) (files w) with
    | LaunchFailed k =>
        (Raise (OSError k),
         {| files := files w;
            trace := trace w ++ [Spawned (magick_argv self pdf_file png_file)] |})
    | Exited returncode _ fs' =>
        (Ok tt,
         {| files := fs';
            trace := trace w ++ [Spawned (magick_argv self pdf_file png_file);
                                 convert_log pdf_file returncode] |})
    end.
Proof. apply convert_pdf_to_png_cases. Qed.

Section Stages.
Variable E : env.
Variable self : EquationProcessor.

Lemma written_app t1 t2 : written (t1 ++ t2) = written t1 ++ written t2.
Proof. unfold written. by rewrite flat_map_app. Qed.

Lemma spawned_app t1 t2 : spawned (t1 ++ t2) = spawned t1 ++ spawned t2.
Proof. unfold spawned. by rewrite flat_map_app. Qed.

(** One record on a machine whose writes succeed and whose rasterizer can
    be launched: the five events of its trace. *)
Lemma process_record_ok i equation filename w :
  (∀ p fs, write_error E p fs = None) →
  (∀ pdf_file png_file fs, ∃ returncode output fs',
      spawn E (magick_argv self pdf_file png_file) fs = Exited returncode output fs') →
  ∃ w' p content argv1 log1 argv2 log2,
    process_record E self i (equation, filename) w = (Ok tt, w')
    ∧ trace w' = trace w ++ [FileWritten p content; Spawned argv1; Log log1.1 log1.2;
                             Spawned argv2; Log log2.1 log2.2].
Proof.
  intros Hwrite Hmagick. unfold process_record.
  destruct (allocate_ok E self
              (clean_filename
                 (if String.eqb filename "" then "equation_" +:+ pretty i else filename))
              (wrap_equation_in_latex equation (color self)) w Hwrite)
    as (tex_filename & Halloc & _).
  unfold mbind, M_bind. unfold bind at 1 2. rewrite Halloc.
  rewrite compile_latex_file_returns.
  set (tex := Py.os_path_join (output_path self) tex_filename).
  set (w2 := {| files := _; trace := _ |}).
  rewrite convert_pdf_to_png_cases.
  destruct (Hmagick (pdf_file_path tex) (png_file_path tex) (files w2))
    as (returncode & output & fs' & ->).
  assert (∃ l, compile_log tex (spawn E (xelatex_argv E self tex)
            ({[tex]} ∪ files w)) = Log l.1 l.2) as [log1 Hlog1].
  { unfold compile_log. destruct (spawn E _ _); [by eexists (_, _)|].
    case_bool_decide; by eexists (_, _). }
  assert (∃ l, convert_log (pdf_file_path tex) returncode = Log l.1 l.2) as [log2 Hlog2].
  { unfold convert_log. case_bool_decide; by eexists (_, _). }
  eexists _, tex, _, _, log1, _, log2. split; [done|].
  unfold w2. simpl. rewrite Hlog1, Hlog2. by rewrite <- !app_assoc.
Qed.

End Stages.

(** X3. No retry and no skipped stage: on a machine whose writes succeed
    and whose rasterizer can be launched, the loop over the records
    returns normally having written exactly one document and spawned
    exactly two processes per record, whatever the compiler and the
    rasterizer answered. *)
Theorem process_records_once_per_stage (E : env) (self : EquationProcessor)
    (equations : list (string * string)) (i : nat) (w : world) :
  (∀ p fs, write_error E p fs = None) →
  (∀ pdf_file png_file fs, ∃ returncode output fs',
      spawn E (magick_argv self pdf_file png_file) fs = Exited returncode output fs') →
  ∃ w',
    process_records E self i equations w = (Ok tt, w')
    ∧ length (written (trace w')) = length (written (trace w)) + length equations
    ∧ length (spawned (trace w')) = length (spawned (trace w)) + 2 * length equations.
Proof.
  intros Hwrite Hmagick. revert i w.
  induction equations as [|[equation filename] equations IH]; intros i w.
  - exists w. simpl. split_and!; [done|lia..].
  - destruct (process_record_ok E self i equation filename w Hwrite Hmagick)
      as (w1 & p & content & argv1 & log1 & argv2 & log2 & Hrec & Htrace).
    destruct (IH (i + 1) w1) as (w' & Hrest & Hwritten & Hspawned).
    exists w'. cbn [process_records]. unfold mbind, M_bind, bind.
    rewrite Hrec. split; [done|].
    rewrite Hwritten, Hspawned, Htrace, written_app, spawned_app, !length_app.
    simpl. lia.
Qed.

Lemma process_records_once_per_stage_witness :
  ∃ w',
    process_records failing_compiler sample_processor 1
      [("x^2", "square"); ("x^2", "square"); ("y", "")] empty_world = (Ok tt, w')
    ∧ length (written (trace w')) = length (written (trace empty_world)) + 3
    ∧ length (spawned (trace w')) = length (spawned (trace empty_world)) + 2 * 3.
Proof.
  apply (process_records_once_per_stage failing_compiler sample_processor
           [("x^2", "square"); ("x^2", "square"); ("y", "")] 1 empty_world).
  - intros p fs. reflexivity.
  - intros pdf_file png_file fs. eexists _, _, _. reflexivity.
Defined.

(** ** The prologue of [process_equations] *)

Lemma lower_char_y c :
  Ascii.eqb (Py.lower_char c) "y" = Ascii.eqb c "y" || Ascii.eqb c "Y".
Proof. destruct c as [[] [] [] [] [] [] [] []]; reflexivity. Qed.

(** Only the one-letter answers y and Y lower to y. *)
Lemma lower_is_y s : Py.lower s = "y" ↔ s = "y" ∨ s = "Y".
Proof.
  destruct s as [|c [|d s]]; simpl.
  - split; [done|]. by intros [|].
  - pose proof (lower_char_y c) as Hc. split.
    + intros [= Heq]. rewrite Heq in Hc. simpl in Hc. symmetry in Hc.
      apply orb_prop in Hc as [->%Ascii.eqb_eq| ->%Ascii.eqb_eq]; auto.
    + by intros [[= ->]|[= ->]].
  - split; [done|]. by intros [|].
Qed.

(** X4. The confirmation gate: once the folder exists and the records are
    loaded, the run goes on to the pipeline exactly when the answer,
    surrounding whitespace apart, is the single letter y or Y; for every
    other answer [process_equations] returns at once, having written,
    spawned and removed nothing. *)
Theorem process_equations_confirmation (E : env) (self : EquationProcessor)
    (equations : list (string * string)) (w : world) :
  makedirs_error E (output_path self) = None →
  read_equation_list (open_csv E (file_path self)) = Ok equations →
  process_equations E self w
  = if bool_decide (Py.strip (stdin_line E) = "y" ∨ Py.strip (stdin_line E) = "Y")
    then run_pipeline E self equations
           {| files := files w;
              trace := trace w ++ [Log INFO (EnsuredFolder (output_path self))] |}
    else (Ok tt,
          {| files := files w;
             trace := trace w ++ [Log INFO (EnsuredFolder (output_path self))] |}).
Proof.
  intros Hdirs Hload.
  unfold process_equations, check_create_folder, lift, mbind, M_bind, bind.
  rewrite Hdirs, Hload. unfold logging_info, emit.
  destruct (decide (Py.lower (Py.strip (stdin_line E)) = "y")) as [Hyes|Hno].
  - rewrite (bool_decide_eq_false_2 (_ ≠ _)) by auto.
    rewrite bool_decide_eq_true_2 by by apply lower_is_y.
    done.
  - rewrite (bool_decide_eq_true_2 (_ ≠ _)) by done.
    rewrite bool_decide_eq_false_2 by by rewrite <- lower_is_y.
    done.
Qed.

Lemma process_equations_confirmation_witness :
  process_equations sample_machine sample_processor empty_world
  = run_pipeline sample_machine sample_processor
      [("x^2", "square"); ("y^2", "circle")]
      {| files := ∅; trace := [Log INFO (EnsuredFolder "/srv/out")] |}.
Proof.
  apply (process_equations_confirmation sample_machine sample_processor
           [("x^2", "square"); ("y^2", "circle")] empty_world); reflexivity.
Defined.



(** ** What the sweep leaves alone *)

Section SweepFrame.
Variable E : env.
Variable self : EquationProcessor.

Lemma endswith_app_r pre file ext :
  Py.endswith file ext = true → Py.endswith (pre +:+ file) ext = true.
Proof.
  intros Hfile. induction pre as [|c pre IH]; [done|].
  change (Py.endswith (String c pre +:+ file) ext)
    with (String.eqb (String c (pre +:+ file)) ext || Py.endswith (pre +:+ file) ext).
  rewrite IH. apply orb_true_r.
Qed.

Lemma is_intermediate_app_r pre file :
  is_intermediate file = true → is_intermediate (pre +:+ file) = true.
Proof.
  unfold is_intermediate. rewrite !existsb_exists.
  intros (ext & Hext & Hend). exists ext. split; [done|]. by apply endswith_app_r.
Qed.

(** Every path the sweep tries to remove ends in one of the four
    extensions. *)
Lemma sweep_targets_intermediate entries p :
  p ∈ sweep_targets entries → is_intermediate p = true.
Proof.
  unfold sweep_targets. rewrite list_elem_of_In, in_flat_map.
  intros ([[root dirs] names] & _ & Hp).
  apply in_map_iff in Hp as (file & <- & Hfile).
  apply filter_In in Hfile as [_ Hfile].
  rewrite os_path_join_prefix. by apply is_intermediate_app_r.
Qed.

Lemma remove_all_frame targets : ∀ d w r w',
  remove_all E targets d w = (r, w') →
  trace w' = trace w
  ∧ files w' ⊆ files w
  ∧ (∀ p, p ∈ files w → p ∉ targets → p ∈ files w').
Proof.
  induction targets as [|q targets IH]; intros d w r w' Hrun.
  - injection Hrun as <- <-. split_and!; [done|done|auto].
  - simpl in Hrun. unfold mbind, M_bind, bind, os_remove in Hrun.
    case_bool_decide as Hq.
    + destruct (remove_error E q).
      * injection Hrun as <- <-. split_and!; [done|done|auto].
      * apply IH in Hrun as (Htrace & Hsub & Hkeep). simpl in *.
        split_and!; [done| |].
        -- intros p Hp. apply Hsub in Hp. by apply elem_of_difference in Hp as [? _].
        -- intros p Hp Hnot. apply not_elem_of_cons in Hnot as [Hne Hnot].
           apply Hkeep; [|done]. apply elem_of_difference. split; [done|].
           by apply not_elem_of_singleton.
    + injection Hrun as <- <-. split_and!; [done|done|auto].
Qed.


Lemma cleanup_files_frame w r w' :
  cleanup_files E self w = (r, w') →
  files w' ⊆ files w
  ∧ (∀ p, p ∈ files w → is_intermediate p = false → p ∈ files w').
Proof.
  unfold cleanup_files, get_files. unfold mbind at 1. unfold M_bind, bind at 1.
  unfold mbind, M_bind, bind. rewrite cleanup_walk_remove_all.
  destruct (remove_all E _ 0 w) as [r1 w1] eqn:Hrun.
  apply remove_all_frame in Hrun as (Htrace & Hsub & Hkeep).
  intros Hend.
  assert (files w' = files w1) as ->.
  { destruct r1; injection Hend as <- <-; done. }
  split; [done|]. intros p Hp Hint. apply Hkeep; [done|].
  intros Hin%sweep_targets_intermediate. congruence.
Qed.

Lemma eqb_length s p : String.eqb s p = true → String.length s = String.length p.
Proof. by intros ->%String.eqb_eq. Qed.

Lemma endswith_short s p :
  String.length s < String.length p → Py.endswith s p = false.
Proof.
  induction s as [|c s IH]; intros Hlen.
  - destruct p; [simpl in Hlen; lia|done].
  - change (Py.endswith (String c s) p)
      with (String.eqb (String c s) p || Py.endswith s p).
    rewrite IH by (simpl in Hlen; lia). rewrite orb_false_r.
    destruct (String.eqb (String c s) p) eqn:Heq; [|done].
    apply eqb_length in Heq. lia.
Qed.

(** Against a suffix of its own length, only the end of a name counts. *)
Lemma endswith_same_length s t p :
  String.length t = String.length p →
  Py.endswith (s +:+ t) p = String.eqb t p.
Proof.
  intros Hlen. induction s as [|c s IH].
  - change ("" +:+ t) with t. destruct t as [|c t].
    + by destruct p.
    + change (Py.endswith (String c t) p)
        with (String.eqb (String c t) p || Py.endswith t p).
      rewrite endswith_short by (simpl in Hlen; lia). apply orb_false_r.
  - change (Py.endswith (String c s +:+ t) p)
      with (String.eqb (String c (s +:+ t)) p || Py.endswith (s +:+ t) p).
    rewrite IH.
    destruct (String.eqb (String c (s +:+ t)) p) eqn:Heq; [|done].
    apply eqb_length in Heq. simpl in Heq. rewrite length_app_s in Heq. lia.
Qed.

Lemma png_not_intermediate stem : is_intermediate (stem +:+ ".png") = false.
Proof.
  unfold is_intermediate, file_extensions. simpl.
  by rewrite !(endswith_same_length stem ".png") by done.
Qed.

End SweepFrame.

(** X6. The sweep deletes nothing else and creates nothing: however
    [cleanup_files] ends, normally or by an exception, a path that
    existed before and does not end in .log, .aux, .tex or .pdf still
    exists, and no path exists that did not exist before. *)
Theorem cleanup_files_keeps_other_files (E : env) (self : EquationProcessor)
    (w w' : world) (r : result unit) (p : string) :
  cleanup_files E self w = (r, w') →
  p ∈ files w →
  is_intermediate p = false →
  p ∈ files w' ∧ files w' ⊆ files w.
Proof.
  intros Hrun Hp Hint. apply cleanup_files_frame in Hrun as [Hsub Hkeep]. auto.
Qed.

Lemma cleanup_files_keeps_other_files_witness :
  "/srv/out/a.png"
  ∈ files (snd (cleanup_files sample_machine sample_processor unswept_world))
  ∧ files (snd (cleanup_files sample_machine sample_processor unswept_world))
    ⊆ files unswept_world.
Proof.
  apply (cleanup_files_keeps_other_files sample_machine sample_processor unswept_world
           (snd (cleanup_files sample_machine sample_processor unswept_world))
           (fst (cleanup_files sample_machine sample_processor unswept_world))
           "/srv/out/a.png").
  - apply surjective_pairing.
  - apply (bool_decide_unpack _). vm_compute. exact I.
  - reflexivity.
Defined.

(** X7. The final images survive the sweep: a path ending in .png that
    existed before [cleanup_files] exists after it, whether the sweep
    completes or is ended by a failed removal. *)
Theorem cleanup_files_keeps_images (E : env) (self : EquationProcessor)
    (w w' : world) (r : result unit) (stem : string) :
  cleanup_files E self w = (r, w') →
  stem +:+ ".png" ∈ files w →
  stem +:+ ".png" ∈ files w'.
Proof.
  intros Hrun Hp. apply cleanup_files_frame in Hrun as [_ Hkeep].
  apply Hkeep; [done|]. apply png_not_intermediate.
Qed.

Lemma cleanup_files_keeps_images_witness :
  "/srv/out/a" +:+ ".png"
  ∈ files (snd (cleanup_files protected_log sample_processor unswept_world)).
Proof.
  apply (cleanup_files_keeps_images protected_log sample_processor unswept_world
           (snd (cleanup_files protected_log sample_processor unswept_world))
           (fst (cleanup_files protected_log sample_processor unswept_world))
           "/srv/out/a").
  - apply surjective_pairing.
  - apply (bool_decide_unpack _). vm_compute. exact I.
Defined.

(** ** Allocation and the documents of a run *)

(** The name the loop finds, and the two ways the write can end. *)
Lemma allocate_outcome (E : env) (self : EquationProcessor)
    (base content : string) (w : world) :
  ∃ name,
    probe self (S (size (files w))) (files w) base (base +:+ ".tex") 1 = Some name
    ∧ (Py.os_path_join (output_path self) name ∉ files w)
    ∧ allocate E self base content w
      = match write_error E (Py.os_path_join (output_path self) name) (files w) with
        | Some k => (Raise (OSError k), w)
        | None =>
            (Ok name,
             {| files := {[Py.os_path_join (output_path self) name]} ∪ files w;
                trace := trace w
                         ++ [FileWritten (Py.os_path_join (output_path self) name) content] |})
        end.
Proof.
  destruct (probe_total self (files w) base (base +:+ ".tex") 1) as [name Hp].
  exists name. split; [done|]. split; [by apply probe_first_free in Hp as [_ ?]|].
  unfold allocate, get_files, mbind, M_bind, bind. rewrite Hp.
  unfold write_file. by destruct (write_error E _ (files w)).
Qed.


Section Documents.
Variable E : env.
Variable self : EquationProcessor.
Hypothesis Htools : tools_only_add E.

Lemma files_after_grows argv fs : fs ⊆ files_after (spawn E argv fs) fs.
Proof.
  unfold files_after. destruct (spawn E argv fs) eqn:Hspawn; [done|].
  by eapply Htools.
Qed.

(** One record writes at most one document, at a path that was free, and
    deletes nothing. *)
Lemma process_record_document i record w r w' :
  process_record E self i record w = (r, w') →
  ∃ t, trace w' = trace w ++ t
       ∧ files w ⊆ files w'
       ∧ (written t = []
          ∨ (∃ p, written t = [p] ∧ (p ∉ files w) ∧ p ∈ files w')).
Proof.
  destruct record as [equation filename]. unfold process_record.
  set (base := clean_filename _). set (content := wrap_equation_in_latex _ _).
  destruct (allocate_outcome E self base content w) as (name & _ & Hfree & Halloc).
  unfold mbind, M_bind. unfold bind at 1 2. rewrite Halloc.
  set (tex := Py.os_path_join (output_path self) name) in *.
  destruct (write_error E tex (files w)).
  { simpl. intros [= <- <-]. exists []. rewrite app_nil_r. auto. }
  rewrite compile_latex_file_returns.
  set (w2 := {| files := _; trace := _ |}).
  assert (files w ⊆ files w2 ∧ tex ∈ files w2) as [Hsub2 Htex2].
  { pose proof (files_after_grows (xelatex_argv E self tex) ({[tex]} ∪ files w)) as Hg.
    unfold w2. simpl. split; [|apply Hg, elem_of_union_l, elem_of_singleton; done].
    intros q Hq. apply Hg, elem_of_union_r, Hq. }
  rewrite convert_pdf_to_png_cases. fold tex.
  destruct (spawn E (magick_argv self (pdf_file_path tex) (png_file_path tex)) (files w2))
    as [k|returncode output fs'] eqn:Hspawn; intros [= <- <-]; simpl.
  - eexists [_; _; _; _]. split; [by rewrite <- !app_assoc|].
    split; [done|]. right. exists tex. split; [|done].
    unfold compile_log. repeat case_match; done.
  - eexists [_; _; _; _; _]. split; [by rewrite <- !app_assoc|].
    apply Htools in Hspawn.
    split; [by etrans|]. right. exists tex. split; [|auto].
    unfold compile_log, convert_log. repeat case_match; done.
Qed.

Lemma process_records_documents equations : ∀ i w r w',
  process_records E self i equations w = (r, w') →
  ∃ t, trace w' = trace w ++ t
       ∧ files w ⊆ files w'
       ∧ NoDup (written t)
       ∧ (∀ p, p ∈ written t → (p ∉ files w) ∧ p ∈ files w').
Proof.
  induction equations as [|record equations IH]; intros i w r w' Hrun.
  - injection Hrun as <- <-. exists []. rewrite app_nil_r.
    split_and!; [done|done|constructor|]. intros p Hp. by apply elem_of_nil in Hp.
  - cbn [process_records] in Hrun. unfold mbind, M_bind, bind in Hrun.
    destruct (process_record E self i record w) as [r1 w1] eqn:Hrec.
    apply process_record_document in Hrec as (t1 & Ht1 & Hsub1 & Hdoc).
    assert (∃ t2, trace w' = trace w1 ++ t2 ∧ files w1 ⊆ files w' ∧ NoDup (written t2)
                  ∧ (∀ p, p ∈ written t2 → (p ∉ files w1) ∧ p ∈ files w'))
      as (t2 & Ht2 & Hsub2 & Hnd2 & Hnew2).
    { destruct r1 as [[]|e|].
      - by apply IH in Hrun.
      - injection Hrun as <- <-. exists []. rewrite app_nil_r.
        split_and!; [done|done|constructor|]. intros p Hp. by apply elem_of_nil in Hp.
      - injection Hrun as <- <-. exists []. rewrite app_nil_r.
        split_and!; [done|done|constructor|]. intros p Hp. by apply elem_of_nil in Hp. }
    exists (t1 ++ t2). rewrite Ht2, Ht1, <- app_assoc, written_app.
    split; [done|]. split; [by etrans|].
    destruct Hdoc as [->|(p1 & -> & Hfree1 & Hin1)]; simpl.
    + split; [done|]. intros p Hp. destruct (Hnew2 p Hp) as [Hp1 Hp2]. auto.
    + split.
      * apply NoDup_cons. split; [|done]. intros Hp. by destruct (Hnew2 p1 Hp).
      * intros p [->|Hp]%elem_of_cons; [auto|].
        destruct (Hnew2 p Hp) as [Hp1 Hp2]. auto.
Qed.

End Documents.

(** X9. No document is overwritten within a run: when the spawned tools
    create files but delete none, the documents the loop over the records
    writes are pairwise distinct paths, none of which existed before the
    loop, however the loop ends. *)
Theorem documents_never_overwritten (E : env) (self : EquationProcessor)
    (equations : list (string * string)) (i : nat) (w w' : world) (r : result unit) :
  tools_only_add E →
  process_records E self i equations w = (r, w') →
  ∃ t, trace w' = trace w ++ t
       ∧ NoDup (written t)
       ∧ (∀ p, p ∈ written t → p ∉ files w).
Proof.
  intros Htools Hrun.
  destruct (process_records_documents E self Htools equations i w r w' Hrun)
    as (t & Ht & _ & Hnd & Hnew).
  exists t. split_and!; [done|done|]. intros p Hp. by destruct (Hnew p Hp).
Qed.

Lemma documents_never_overwritten_witness :
  ∃ t, trace (snd (process_records sample_machine sample_processor 1
                     [("x^2", "square"); ("x^2", "square"); ("y", "")] empty_world))
       = trace empty_world ++ t
       ∧ NoDup (written t)
       ∧ (∀ p, p ∈ written t → p ∉ files empty_world).
Proof.
  apply (documents_never_overwritten sample_machine sample_processor
           [("x^2", "square"); ("x^2", "square"); ("y", "")] 1 empty_world
           (snd (process_records sample_machine sample_processor 1
                   [("x^2", "square"); ("x^2", "square"); ("y", "")] empty_world))
           (fst (process_records sample_machine sample_processor 1
                   [("x^2", "square"); ("x^2", "square"); ("y", "")] empty_world))).
  - intros argv fs returncode output fs' [= _ _ <-]. reflexivity.
  - apply surjective_pairing.
Defined.

(** ** Document names *)

Section Names.

Lemma clean_filename_app a b :
  clean_filename (a +:+ b) = clean_filename a +:+ clean_filename b.
Proof.
  induction a as [|c a IH]; [done|].
  rewrite app_cons. simpl. destruct (is_safe c); [|done].
  by rewrite app_cons, IH.
Qed.

Lemma string_forallb_app p a b :
  string_forallb p (a +:+ b) = string_forallb p a && string_forallb p b.
Proof.
  induction a as [|c a IH]; [done|].
  rewrite app_cons. simpl. by rewrite IH, andb_assoc.
Qed.

Lemma pretty_N_char_safe x : is_safe (pretty_N_char x) = true.
Proof. unfold pretty_N_char. by repeat case_match. Qed.

Lemma pretty_N_go_safe x : ∀ s,
  string_forallb is_safe s = true → string_forallb is_safe (pretty_N_go x s) = true.
Proof.
  induction (N.lt_wf_0 x) as [x _ IH]; intros s Hs.
  destruct (decide (x = 0)%N) as [->|Hx]; [by rewrite pretty_N_go_0|].
  rewrite pretty_N_go_step by lia. apply IH.
  - apply N.div_lt; lia.
  - simpl. by rewrite pretty_N_char_safe.
Qed.

(** A decimal numeral has digits only. *)
Lemma pretty_nat_safe (k : nat) : string_forallb is_safe (pretty k) = true.
Proof.
  unfold pretty, pretty_nat, pretty, pretty_N.
  case_decide; [done|]. by apply pretty_N_go_safe.
Qed.

Lemma safe_not_slash s : string_forallb is_safe s = true → Py.startswith s "/" = false.
Proof.
  destruct s as [|c s]; [done|]. simpl. intros [Hc _]%andb_prop.
  destruct (Ascii.eqb_spec c "/") as [->|]; done.
Qed.

Lemma join_relative dir name :
  Py.startswith name "/" = false →
  Py.os_path_join dir name = Py.os_path_join dir "" +:+ name.
Proof.
  intros Hname. unfold Py.os_path_join. rewrite Hname.
  change (Py.startswith "" "/") with false. cbv iota.
  destruct (String.eqb dir "" || Py.endswith dir "/").
  - by rewrite app_nil_r_s.
  - change ("/" +:+ "") with "/". by rewrite app_assoc_s.
Qed.

Lemma first_free_safe dir fs base name :
  string_forallb is_safe base = true →
  first_free dir fs base name →
  string_forallb is_safe name = true.
Proof.
  intros Hbase [[_ ->]|(_ & k & _ & -> & _)]; unfold numbered;
    rewrite !string_forallb_app, Hbase, ?pretty_nat_safe; done.
Qed.

End Names.

(** X10. Sanitising distributes over concatenation and never lengthens:
    cleaning a name piece by piece gives the cleaned whole. *)
Theorem clean_filename_concat (a b : string) :
  clean_filename (a +:+ b) = clean_filename a +:+ clean_filename b
  ∧ String.length (clean_filename a) ≤ String.length a.
Proof.
  split; [apply clean_filename_app|].
  induction a as [|c a IH]; simpl; [done|]. destruct (is_safe c); simpl; lia.
Qed.

(** X11. The positional fallback name passes the sanitiser unchanged and
    tells the positions apart: equation_i is its own cleaned form, and two
    indices with the same fallback name are equal. *)
Theorem fallback_name_is_clean (i j : nat) :
  clean_filename ("equation_" +:+ pretty i) = "equation_" +:+ pretty i
  ∧ ("equation_" +:+ pretty i = "equation_" +:+ pretty j ↔ i = j).
Proof.
  split.
  - apply clean_filename_fixed. by rewrite string_forallb_app, pretty_nat_safe.
  - split; [|by intros ->]. intros Heq. apply (inj (String.app _)) in Heq.
    by apply (inj pretty) in Heq.
Qed.

(** X12. Where a record's document goes: however [process_record] ends,
    a document it wrote lies directly under the output directory and its
    file name has only characters of the class [a-zA-Z0-9_.], so no
    requested name can point the write elsewhere. *)
Theorem document_name_is_safe (E : env) (self : EquationProcessor)
    (i : nat) (record : string * string) (w w' : world) (r : result unit) :
  process_record E self i record w = (r, w') →
  ∃ t, trace w' = trace w ++ t
       ∧ Forall (λ p, ∃ name, p = Py.os_path_join (output_path self) "" +:+ name
                              ∧ string_forallb is_safe name = true)
                (written t).
Proof.
  destruct record as [equation filename]. unfold process_record.
  set (base := clean_filename _). set (content := wrap_equation_in_latex _ _).
  destruct (probe_total self (files w) base (base +:+ ".tex") 1) as [name Hp].
  assert (string_forallb is_safe name = true) as Hsafe.
  { apply probe_first_free in Hp as [Hff _].
    eapply first_free_safe; [|exact Hff]. apply clean_filename_safe. }
  unfold mbind, M_bind. unfold bind at 1 2.
  unfold allocate, get_files, mbind, M_bind. unfold bind at 1. rewrite Hp.
  unfold bind at 1, write_file.
  set (tex := Py.os_path_join (output_path self) name).
  destruct (write_error E tex (files w)).
  { intros [= <- <-]. exists []. rewrite app_nil_r. split; [done|constructor]. }
  cbn beta iota. unfold ret. rewrite compile_latex_file_returns, convert_pdf_to_png_cases.
  fold tex. cbn [files trace].
  assert (∃ name, tex = Py.os_path_join (output_path self) "" +:+ name
                  ∧ string_forallb is_safe name = true) as Htex.
  { exists name. split; [|done]. by apply join_relative, safe_not_slash. }
  case_match; intros [= <- <-]; cbn [trace].
  - eexists [_; _; _; _]. split; [by rewrite <- !app_assoc|].
    unfold compile_log. repeat case_match; by repeat constructor.
  - eexists [_; _; _; _; _]. split; [by rewrite <- !app_assoc|].
    unfold compile_log, convert_log. repeat case_match; by repeat constructor.
Qed.

Lemma document_name_is_safe_witness :
  ∃ t, trace (snd (process_record sample_machine sample_processor 1
                     ("x^2", "../../etc/my plot") empty_world))
       = trace empty_world ++ t
       ∧ Forall (λ p, ∃ name, p = Py.os_path_join (output_path sample_processor) "" +:+ name
                              ∧ string_forallb is_safe name = true)
                (written t).
Proof.
  apply (document_name_is_safe sample_machine sample_processor 1
           ("x^2", "../../etc/my plot") empty_world
           (snd (process_record sample_machine sample_processor 1
                   ("x^2", "../../etc/my plot") empty_world))
           (fst (process_record sample_machine sample_processor 1
                   ("x^2", "../../etc/my plot") empty_world))).
  apply surjective_pairing.
Defined.

Section FirstDocument.
Variable E : env.
Variable self : EquationProcessor.

(** When the document of the candidate base is free and can be written,
    it is the first thing the record does. *)
Lemma process_record_first_document i equation filename w :
  write_error E
    (Py.os_path_join (output_path self)
       (clean_filename (if String.eqb filename "" then "equation_" +:+ pretty i else filename)
        +:+ ".tex"))
    (files w) = None →
  Py.os_path_join (output_path self)
    (clean_filename (if String.eqb filename "" then "equation_" +:+ pretty i else filename)
     +:+ ".tex") ∉ files w →
  ∃ r w' t,
    process_record E self i (equation, filename) w = (r, w')
    ∧ trace w'
      = trace w
        ++ FileWritten
             (Py.os_path_join (output_path self)
                (clean_filename
                   (if String.eqb filename "" then "equation_" +:+ pretty i else filename)
                 +:+ ".tex"))
             (wrap_equation_in_latex equation (color self)) :: t.
Proof.
  set (base := clean_filename _). intros Hwrite Hfree.
  unfold process_record. fold base.
  set (content := wrap_equation_in_latex _ _).
  destruct (allocate_outcome E self base content w) as (name & Hp & _ & Halloc).
  assert (name = base +:+ ".tex") as ->.
  { apply probe_first_free in Hp as [[[_ ->]|[Hin _]] _]; done. }
  rewrite Hwrite in Halloc.
  unfold mbind, M_bind. unfold bind at 1 2. rewrite Halloc.
  rewrite compile_latex_file_returns.
  set (w2 := {| files := _; trace := _ |}).
  destruct (convert_pdf_to_png_spawns E self
              (pdf_file_path (Py.os_path_join (output_path self) (base +:+ ".tex")))
              (png_file_path (Py.os_path_join (output_path self) (base +:+ ".tex"))) w2)
    as (r & w' & t & -> & Htrace).
  eexists r, w', _. split; [done|].
  rewrite Htrace. unfold w2. cbn [trace]. by rewrite <- !app_assoc.
Qed.

Lemma clean_filename_unsafe s :
  string_forallb (λ c, negb (is_safe c)) s = true → clean_filename s = "".
Proof.
  induction s as [|c s IH]; [done|]. simpl.
  destruct (is_safe c); [done|]. exact IH.
Qed.

End FirstDocument.

(** X13. A record without a requested name is rendered under its
    position: when equation_i.tex is free in the output directory and can
    be written, the record at position [i] with an empty name writes its
    document there. *)
Theorem unnamed_record_uses_position (E : env) (self : EquationProcessor)
    (i : nat) (equation : string) (w : world) :
  write_error E
    (Py.os_path_join (output_path self) (("equation_" +:+ pretty i) +:+ ".tex"))
    (files w) = None →
  Py.os_path_join (output_path self) (("equation_" +:+ pretty i) +:+ ".tex") ∉ files w →
  ∃ r w' t,
    process_record E self i (equation, "") w = (r, w')
    ∧ trace w'
      = trace w
        ++ FileWritten
             (Py.os_path_join (output_path self) (("equation_" +:+ pretty i) +:+ ".tex"))
             (wrap_equation_in_latex equation (color self)) :: t.
Proof.
  intros Hwrite Hfree.
  pose proof (process_record_first_document E self i equation "" w) as H.
  change (String.eqb "" "") with true in H. cbv iota in H.
  assert (clean_filename ("equation_" +:+ pretty i) = "equation_" +:+ pretty i) as Hclean.
  { apply clean_filename_fixed. by rewrite string_forallb_app, pretty_nat_safe. }
  rewrite Hclean in H. by apply H.
Qed.

Lemma unnamed_record_uses_position_witness :
  ∃ r w' t,
    process_record sample_machine sample_processor 3 ("y", "") empty_world = (r, w')
    ∧ trace w'
      = trace empty_world
        ++ FileWritten
             (Py.os_path_join (output_path sample_processor)
                (("equation_" +:+ pretty 3) +:+ ".tex"))
             (wrap_equation_in_latex "y" (color sample_processor)) :: t.
Proof.
  apply (unnamed_record_uses_position sample_machine sample_processor 3 "y" empty_world).
  - reflexivity.
  - apply (bool_decide_unpack _). vm_compute. exact I.
Defined.

(** X14. A requested name without any safe character is not replaced by
    the positional fallback: its cleaned form is empty, and the document,
    when free and writable, is the file named .tex in the output
    directory. *)
Theorem unsafe_name_gives_dot_tex (E : env) (self : EquationProcessor)
    (i : nat) (equation filename : string) (w : world) :
  filename ≠ "" →
  string_forallb (λ c, negb (is_safe c)) filename = true →
  write_error E (Py.os_path_join (output_path self) ".tex") (files w) = None →
  Py.os_path_join (output_path self) ".tex" ∉ files w →
  ∃ r w' t,
    process_record E self i (equation, filename) w = (r, w')
    ∧ trace w'
      = trace w
        ++ FileWritten (Py.os_path_join (output_path self) ".tex")
             (wrap_equation_in_latex equation (color self)) :: t.
Proof.
  intros Hne Hunsafe Hwrite Hfree.
  pose proof (process_record_first_document E self i equation filename w) as H.
  destruct (String.eqb_spec filename "") as [->|_]; [done|].
  rewrite (clean_filename_unsafe filename Hunsafe) in H. by apply H.
Qed.

Lemma unsafe_name_gives_dot_tex_witness :
  ∃ r w' t,
    process_record sample_machine sample_processor 1 ("x", "(?) !") empty_world = (r, w')
    ∧ trace w'
      = trace empty_world
        ++ FileWritten (Py.os_path_join (output_path sample_processor) ".tex")
             (wrap_equation_in_latex "x" (color sample_processor)) :: t.
Proof.
  apply (unsafe_name_gives_dot_tex sample_machine sample_processor 1 "x" "(?) !"
           empty_world).
  - discriminate.
  - reflexivity.
  - reflexivity.
  - apply (bool_decide_unpack _). vm_compute. exact I.
Defined.

(** ** The template and the command lines *)

Lemma lstrip_by_stable p s : Py.lstrip_by p (Py.lstrip_by p s) = Py.lstrip_by p s.
Proof.
  induction s as [|c s IH]; [done|]. simpl.
  destruct (p c) eqn:Hc; [done|]. simpl. by rewrite Hc.
Qed.

(** [lstrip] cuts a string into the run it drops and what it returns,
    which does not start with a dropped character. *)
Lemma lstrip_by_split p s :
  ∃ pre, s = pre +:+ Py.lstrip_by p s ∧ string_forallb p pre = true.
Proof.
  induction s as [|c s (pre & IH & Hpre)]; [by exists ""|].
  simpl. destruct (p c) eqn:Hc.
  - exists (String c pre). simpl. by rewrite Hc, Hpre, <- IH.
  - by exists "".
Qed.

Lemma lstrip_by_head p s :
  match Py.lstrip_by p s with
  | "" => True
  | String c _ => p c = false
  end.
Proof.
  induction s as [|c s IH]; [done|]. simpl.
  destruct (p c) eqn:Hc; [done|]. done.
Qed.

(** X15. Every leading hash of the colour is dropped, not only one: a
    colour is a run of hashes followed by a code that does not start with
    a hash, and the document is the fixed text up to the opening brace of
    the colour definition, then that code, then the closing brace and the
    rest of the document; the code alone gives the same document. *)
Theorem wrap_equation_strips_all_hashes (equation color : string) :
  ∃ hashes code,
    color = hashes +:+ code
    ∧ string_forallb (λ ch, Py.char_in ch "#") hashes = true
    ∧ Py.startswith code "#" = false
    ∧ wrap_equation_in_latex equation color
      = before_color_code +:+ code +:+ after_color_code equation
    ∧ wrap_equation_in_latex equation code = wrap_equation_in_latex equation color.
Proof.
  destruct (lstrip_by_split (λ ch, Py.char_in ch "#") color) as (hashes & Hsplit & Hhashes).
  exists hashes, (Py.lstrip "#" color). split_and!; [done|done| | |].
  - pose proof (lstrip_by_head (λ ch, Py.char_in ch "#") color) as Hhead.
    unfold Py.lstrip. destruct (Py.lstrip_by _ color) as [|c code]; [done|].
    simpl in *. rewrite orb_false_r in Hhead. by rewrite Hhead.
  - apply wrap_equation_shape.
  - unfold wrap_equation_in_latex, Py.lstrip. by rewrite lstrip_by_stable.
Qed.

Lemma replace_go_absent old new s : ∀ fuel,
  Py.contains old s = false → Py.replace_go fuel old new s = s.
Proof.
  induction s as [|c s IH]; intros fuel Hs; [by destruct fuel|].
  destruct fuel as [|fuel]; [done|].
  rewrite contains_cons in Hs. apply orb_false_elim in Hs as [Hsw Hs].
  cbn [Py.replace_go]. rewrite Hsw. by rewrite IH.
Qed.

(** A string without backslash is its own slash form. *)
Lemma unix_form_fixed s : Py.contains "\" s = false → Py.replace "\" "/" s = s.
Proof. intros Hs. unfold Py.replace. by apply replace_go_absent. Qed.

(** X16. The command lines: for paths without a backslash the compiler
    is run as xelatex -output-directory=<absolute output directory>
    <document> and the rasterizer as magick convert -density <resolution>
    -quality 100 <page> <image>, on the very paths the pipeline passes. *)
Theorem command_lines_on_plain_paths (E : env) (self : EquationProcessor)
    (tex_file pdf_file png_file : string) :
  Py.contains "\" (abspath E (output_path self)) = false →
  Py.contains "\" tex_file = false →
  Py.contains "\" pdf_file = false →
  Py.contains "\" png_file = false →
  xelatex_argv E self tex_file
  = ["xelatex"; "-output-directory=" +:+ abspath E (output_path self); tex_file]
  ∧ magick_argv self pdf_file png_file
    = ["magick"; "convert"; "-density"; pretty (resolution self); "-quality"; "100";
       pdf_file; png_file].
Proof.
  intros Hdir Htex Hpdf Hpng. unfold xelatex_argv, magick_argv.
  by rewrite !unix_form_fixed.
Qed.

Lemma command_lines_on_plain_paths_witness :
  xelatex_argv sample_machine sample_processor "/srv/out/square.tex"
  = ["xelatex"; "-output-directory=" +:+ "/srv/out"; "/srv/out/square.tex"]
  ∧ magick_argv sample_processor "/srv/out/square.pdf" "/srv/out/square.png"
    = ["magick"; "convert"; "-density"; pretty (resolution sample_processor);
       "-quality"; "100"; "/srv/out/square.pdf"; "/srv/out/square.png"].
Proof.
  apply (command_lines_on_plain_paths sample_machine sample_processor
           "/srv/out/square.tex" "/srv/out/square.pdf" "/srv/out/square.png");
    reflexivity.
Defined.

(** ** The loader and blank fields *)

Lemma lstrip_by_all p s : string_forallb p s = true → Py.lstrip_by p s = "".
Proof.
  induction s as [|c s IH]; [done|]. simpl.
  intros [-> Hs]%andb_prop. by apply IH.
Qed.

Lemma strip_blank s : string_forallb Py.isspace s = true → Py.strip s = "".
Proof. intros Hs. unfold Py.strip. by rewrite lstrip_by_all. Qed.

(** X17. A flagged row whose name field is empty or all whitespace loads
    as a record with the empty name, the value that makes the pipeline
    fall back to the positional name. *)
Theorem blank_name_loads_empty (header : list string) (body name : string)
    (extra : list string) (rows : list (list string)) :
  string_forallb Py.isspace name = true →
  forallb row_ok rows = true →
  read_equation_list (Opened (header :: ("1" :: body :: name :: extra) :: rows))
  = Ok ((Py.strip body, "") :: spec_load rows).
Proof.
  intros Hname Hrows. simpl. rewrite read_rows_ok by done.
  by rewrite (strip_blank name Hname).
Qed.

Lemma blank_name_loads_empty_witness :
  read_equation_list
    (Opened [["valid"; "equation"; "name"]; ["1"; " a+b "; "  "; "note"]; ["0"; "c"]])
  = Ok [("a+b", "")].
Proof.
  apply (blank_name_loads_empty ["valid"; "equation"; "name"] " a+b " "  " ["note"]
           [["0"; "c"]]); reflexivity.
Defined.
